(** * sana-api-wrapper: a shallow embedding of [main.py]

    The service loads one diffusion pipeline at start-up, answers
    [GET /health] and [POST /generate], crops every generated image to a
    centred 2:3 rectangle and re-encodes it with the external [cjpeg]
    program through two named temporary files.

    The embedding follows [main.py] function by function:
    - the module-level dictionary [ml_models] is a [gmap string Value];
    - the file system, the [PATH], the default random generator of torch and
      two traces (model invocations, spawned processes) form the [World];
    - the libraries the module calls (diffusers, torch, PIL, the programs
      on disk) are the fields of an [Env] record;
    - Python exceptions are values of [Exception]; code that may raise runs
      in the state-and-exception monad [M], in which the state survives a
      raise, as it does in Python;
    - [2 / 3], [width / target_ratio], [height * target_ratio] and [int]
      are IEEE-754 binary64 operations, taken from the Standard Library's
      [SpecFloat] (precision 53, [emax] 1024).

    Logging and wall-clock timing have no effect on any value computed
    below and are left out. *)

From Stdlib Require Import ZArith Lia Floats.SpecFloat.
From stdpp Require Import gmap strings list pretty.

Local Open Scope Z_scope.

(** ** Python values and exceptions *)

Abbreviation Bytes := (list Byte.byte).

(** The exceptions that the modelled code paths can raise.  [LibraryError]
    stands for anything raised inside diffusers, torch or PIL. *)
Inductive Exception :=
| OverflowError (msg : string)
| ValueError (msg : string)
| TypeError (msg : string)
| FileNotFoundError (filename : string)
| CalledProcessError (returncode : Z) (cmd : list string)
| RuntimeError (msg : string)
| LibraryError (msg : string).

(** [repr] of a string without characters that need escaping, and of a list
    of such strings. *)
Definition py_repr (s : string) : string := "'" +:+ s +:+ "'".

Definition py_repr_list (l : list string) : string :=
  "[" +:+ String.concat ", " (map py_repr l) +:+ "]".

(** The names of [signal.Signals] on Linux (CPython 3.11 or later), by
    number; where two names share a number the enumeration shows the one
    that sorts first ([SIGABRT], [SIGCHLD], [SIGIO]). The real-time signals
    between [SIGRTMIN] and [SIGRTMAX] have no name. *)
Definition signal_name (n : Z) : option string :=
  match n with
  | 1 => Some "SIGHUP" | 2 => Some "SIGINT" | 3 => Some "SIGQUIT"
  | 4 => Some "SIGILL" | 5 => Some "SIGTRAP" | 6 => Some "SIGABRT"
  | 7 => Some "SIGBUS" | 8 => Some "SIGFPE" | 9 => Some "SIGKILL"
  | 10 => Some "SIGUSR1" | 11 => Some "SIGSEGV" | 12 => Some "SIGUSR2"
  | 13 => Some "SIGPIPE" | 14 => Some "SIGALRM" | 15 => Some "SIGTERM"
  | 16 => Some "SIGSTKFLT" | 17 => Some "SIGCHLD" | 18 => Some "SIGCONT"
  | 19 => Some "SIGSTOP" | 20 => Some "SIGTSTP" | 21 => Some "SIGTTIN"
  | 22 => Some "SIGTTOU" | 23 => Some "SIGURG" | 24 => Some "SIGXCPU"
  | 25 => Some "SIGXFSZ" | 26 => Some "SIGVTALRM" | 27 => Some "SIGPROF"
  | 28 => Some "SIGWINCH" | 29 => Some "SIGIO" | 30 => Some "SIGPWR"
  | 31 => Some "SIGSYS" | 34 => Some "SIGRTMIN" | 64 => Some "SIGRTMAX"
  | _ => None
  end.

(** [str(e)], as it is interpolated into the detail of a 500 response. For
    [CalledProcessError] a negative return code [-n] means the process died
    of signal [n]: the text shows [repr(signal.Signals(n))] when the
    enumeration knows [n], and the number alone otherwise. *)
Definition exc_str (e : Exception) : string :=
  match e with
  | OverflowError m | ValueError m | TypeError m
  | RuntimeError m | LibraryError m => m
  | FileNotFoundError f =>
      "[Errno 2] No such file or directory: " +:+ py_repr f
  | CalledProcessError rc cmd =>
      if bool_decide (rc < 0) then
        match signal_name (- rc) with
        | Some sig =>
            "Command '" +:+ py_repr_list cmd +:+ "' died with <Signals." +:+ sig
              +:+ ": " +:+ pretty (- rc) +:+ ">."
        | None =>
            "Command '" +:+ py_repr_list cmd +:+ "' died with unknown signal "
              +:+ pretty (- rc) +:+ "."
        end
      else
        "Command '" +:+ py_repr_list cmd +:+ "' returned non-zero exit status "
          +:+ pretty rc +:+ "."
  end.

(** ** Images *)

(** A decoded bitmap: its [size] and a pixel accessor. *)
Record Image := mkImage {
  img_width : Z;
  img_height : Z;
  getpixel : Z -> Z -> Z
}.

(** A crop box [(left, top, right, bottom)]. *)
Record Box := mkBox {
  box_left : Z;
  box_top : Z;
  box_right : Z;
  box_bottom : Z
}.

(** [Image.crop]: the region [[left, right) x [top, bottom)]; pixels outside
    the source read as 0. *)
Definition crop (im : Image) (b : Box) : Image :=
  {| img_width := box_right b - box_left b;
     img_height := box_bottom b - box_top b;
     getpixel := fun x y =>
       let sx := x + box_left b in
       let sy := y + box_top b in
       if bool_decide (0 <= sx < img_width im /\ 0 <= sy < img_height im)
       then getpixel im sx sy else 0 |}.

(** ** binary64 arithmetic *)

Definition f64_div : spec_float -> spec_float -> spec_float := SFdiv 53 1024.
Definition f64_mul : spec_float -> spec_float -> spec_float := SFmul 53 1024.

(** [float(n)] for a Python integer: the nearest binary64, or
    [OverflowError] when that is out of range. *)
Definition float_of_int (n : Z) : Exception + spec_float :=
  match binary_normalize 53 1024 n 0 false with
  | S754_infinity _ => inl (OverflowError "int too large to convert to float")
  | f => inr f
  end.

(** [int(x)] for a float: truncation towards zero. *)
Definition int_of_float (x : spec_float) : Exception + Z :=
  match x with
  | S754_zero _ => inr 0
  | S754_finite s m e =>
      let a := match e with
               | Z0 => Zpos m
               | Zpos p => Z.shiftl (Zpos m) e
               | Zneg p => Z.shiftr (Zpos m) (- e)
               end in
      inr (if s then - a else a)
  | S754_infinity _ =>
      inl (OverflowError "cannot convert float infinity to integer")
  | S754_nan => inl (ValueError "cannot convert float NaN to integer")
  end.

(** [target_ratio = 2 / 3]: the true division of two integers. *)
Definition target_ratio : spec_float :=
  f64_div (binary_normalize 53 1024 2 0 false) (binary_normalize 53 1024 3 0 false).

(** [int(width / target_ratio)] *)
Definition height_for_width (width : Z) : Exception + Z :=
  match float_of_int width with
  | inl e => inl e
  | inr fw => int_of_float (f64_div fw target_ratio)
  end.

(** [int(height * target_ratio)] *)
Definition width_for_height (height : Z) : Exception + Z :=
  match float_of_int height with
  | inl e => inl e
  | inr fh => int_of_float (f64_mul fh target_ratio)
  end.

(** Lines 73-85 of [generate_image]: the centred 2:3 box for an image of
    the given size.  [//] is floor division, which is [Z.div]. *)
Definition crop_box (width height : Z) : Exception + Box :=
  let target_width := width in
  match height_for_width width with
  | inl e => inl e
  | inr target_height =>
      let sized :=
        if bool_decide (target_height > height) then
          match width_for_height height with
          | inl e => inl e
          | inr tw => inr (tw, height)
          end
        else inr (target_width, target_height) in
      match sized with
      | inl e => inl e
      | inr (target_width, target_height) =>
          let left := (width - target_width) / 2 in
          let top := (height - target_height) / 2 in
          let right := left + target_width in
          let bottom := top + target_height in
          inr (mkBox left top right bottom)
      end
  end.

(** ** The world the module runs in *)

(** State of a torch random generator. *)
Abbreviation Rng := Z.

(** The model capability: [pipeline(prompt=..., num_inference_steps=...,
    generator=...).images[0]].  It draws its noise from the generator state
    it is given and returns the advanced state. *)
Record Pipeline := mkPipeline {
  run : string -> Z -> Rng -> (Exception + Image) * Rng
}.

(** What [ml_models] holds: the pipeline under ["sana_sprint"], the device
    name under ["device"]. *)
Inductive Value :=
| VPipeline (p : Pipeline)
| VStr (s : string).

(** Truth value of an object in a condition. *)
Definition truthy (v : Value) : bool :=
  match v with
  | VPipeline _ => true
  | VStr s => negb (bool_decide (s = EmptyString))
  end.

(** One invocation of the model capability, as a call counter sees it. *)
Record PipelineCall := mkCall {
  call_prompt : string;
  call_steps : Z;
  call_generator : option Rng
}.

(** A program on disk: from its argument vector and read access to the
    files, its exit status and the files it wrote. *)
Definition Program : Type :=
  list string -> (string -> option Bytes) -> Z * list (string * Bytes).

(** The collaborators of the module. *)
Record Env := mkEnv {
  cuda_is_available : bool;
  getenv_model_path : option string;
  from_pretrained : string -> Exception + Pipeline;
  pipeline_to : Pipeline -> string -> option Exception;
  manual_seed : option Value -> Z -> Exception + Rng;
  save_bmp : Image -> Exception * option Bytes + Bytes;
  executables : gmap string Program
}.

Record World := mkWorld {
  ml_models : gmap string Value;
  environ_path : list string;
  fs : gmap string Bytes;
  tmp_seq : nat;
  default_rng : Rng;
  pipeline_calls : list PipelineCall;
  spawned : list (list string)
}.

Definition set_ml_models (f : gmap string Value -> gmap string Value) (w : World) : World :=
  mkWorld (f (ml_models w)) (environ_path w) (fs w) (tmp_seq w)
          (default_rng w) (pipeline_calls w) (spawned w).

Definition set_environ_path (f : list string -> list string) (w : World) : World :=
  mkWorld (ml_models w) (f (environ_path w)) (fs w) (tmp_seq w)
          (default_rng w) (pipeline_calls w) (spawned w).

Definition set_fs (f : gmap string Bytes -> gmap string Bytes) (w : World) : World :=
  mkWorld (ml_models w) (environ_path w) (f (fs w)) (tmp_seq w)
          (default_rng w) (pipeline_calls w) (spawned w).

Definition set_tmp_seq (f : nat -> nat) (w : World) : World :=
  mkWorld (ml_models w) (environ_path w) (fs w) (f (tmp_seq w))
          (default_rng w) (pipeline_calls w) (spawned w).

Definition set_default_rng (f : Rng -> Rng) (w : World) : World :=
  mkWorld (ml_models w) (environ_path w) (fs w) (tmp_seq w)
          (f (default_rng w)) (pipeline_calls w) (spawned w).

Definition set_pipeline_calls (f : list PipelineCall -> list PipelineCall) (w : World) : World :=
  mkWorld (ml_models w) (environ_path w) (fs w) (tmp_seq w)
          (default_rng w) (f (pipeline_calls w)) (spawned w).

Definition set_spawned (f : list (list string) -> list (list string)) (w : World) : World :=
  mkWorld (ml_models w) (environ_path w) (fs w) (tmp_seq w)
          (default_rng w) (pipeline_calls w) (f (spawned w)).

(** ** The state-and-exception monad *)

Definition M (A : Type) : Type := World -> (Exception + A) * World.

Definition ret {A} (a : A) : M A := fun w => (inr a, w).

Definition raise {A} (e : Exception) : M A := fun w => (inl e, w).

Definition bind {A B} (m : M A) (k : A -> M B) : M B :=
  fun w =>
    match m w with
    | (inr a, w') => k a w'
    | (inl e, w') => (inl e, w')
    end.

Definition lift {A} (r : Exception + A) : M A := fun w => (r, w).

Definition modify (f : World -> World) : M unit := fun w => (inr tt, f w).

(** [try: body / finally: cleanup]: the clean-up runs on both exits and the
    outcome of the body is kept (no modelled clean-up raises). *)
Definition finally {A} (body : M A) (cleanup : World -> World) : M A :=
  fun w => let '(r, w') := body w in (r, cleanup w').

#[global] Instance M_ret : MRet M := @ret.
#[global] Instance M_bind : MBind M := fun A B k m => bind m k.

(** ** Files and processes *)

(** A file object returned by [tempfile.NamedTemporaryFile]. *)
Record TempFile := mkTempFile {
  name : string;
  delete : bool
}.

Definition tmp_name (n : nat) (suffix : string) : string :=
  "/tmp/tmp" +:+ pretty n +:+ suffix.

(** [tempfile.NamedTemporaryFile(delete=..., suffix=...)]: creates an empty
    file under a new name. *)
Definition NamedTemporaryFile (delete : bool) (suffix : string) : M TempFile :=
  fun w =>
    let f := mkTempFile (tmp_name (tmp_seq w) suffix) delete in
    (inr f, set_tmp_seq S (set_fs (insert (name f) []) w)).

(** Leaving the [with] block closes the file object; closing unlinks the
    file only when it was created with [delete=True]. *)
Definition close_temp (f : TempFile) (w : World) : World :=
  if delete f then set_fs (base.delete (name f)) w else w.

(** [with tempfile.NamedTemporaryFile(...) as f: body] *)
Definition with_temp {A} (delete : bool) (suffix : string)
    (body : TempFile -> M A) : M A :=
  f ← NamedTemporaryFile delete suffix;
  finally (body f) (close_temp f).

(** [pil_image.save(path, format="BMP")]. [save_bmp] gives the bytes of a
    save that succeeds; for a save that raises it gives the exception and
    what the save had put on the path by then ([None] when it raised before
    opening the path, which then keeps its content). *)
Definition image_save (env : Env) (im : Image) (path : string) : M unit :=
  match save_bmp env im with
  | inr data => modify (set_fs (insert path data))
  | inl (e, Some part) => fun w => (inl e, set_fs (insert path part) w)
  | inl (e, None) => raise e
  end.

(** [open(path, "rb").read()] *)
Definition read_file (path : string) : M Bytes :=
  fun w =>
    match fs w !! path with
    | Some data => (inr data, w)
    | None => (inl (FileNotFoundError path), w)
    end.

(** Resolution of a bare program name, such as ["cjpeg"], along [PATH]: the
    first directory that holds it wins. *)
Fixpoint which (env : Env) (dirs : list string) (prog : string) : option Program :=
  match dirs with
  | [] => None
  | d :: rest =>
      match executables env !! (d +:+ "/" +:+ prog) with
      | Some p => Some p
      | None => which env rest prog
      end
  end.

Definition write_files (writes : list (string * Bytes)) (w : World) : World :=
  set_fs (fun m => foldl (fun acc kv => <[kv.1 := kv.2]> acc) m writes) w.

(** [subprocess.run(argv, check=check)]: the exit status, or
    [FileNotFoundError] when the program is not found, or
    [CalledProcessError] when [check] is set and the status is not 0. *)
Definition subprocess_run (env : Env) (argv : list string) (check : bool) : M Z :=
  fun w =>
    match which env (environ_path w) (hd EmptyString argv) with
    | None => (inl (FileNotFoundError (hd EmptyString argv)), w)
    | Some prog =>
        let '(rc, writes) := prog argv (fun p => fs w !! p) in
        let w' := set_spawned (fun l => l ++ [argv]) (write_files writes w) in
        if check && negb (bool_decide (rc = 0))
        then (inl (CalledProcessError rc argv), w')
        else (inr rc, w')
    end.

(** ** Module initialisation (lines 17-23) *)

(** [os.environ["PATH"] += os.pathsep + "/opt/mozjpeg/bin"] and
    [ml_models = {}]. *)
Definition module_init (w : World) : World :=
  set_ml_models (fun _ => ∅)
    (set_environ_path (fun p => p ++ ["/opt/mozjpeg/bin"]) w).

(** ** [lifetime] (lines 25-52) *)

(** The [finally] block. *)
Definition lifetime_cleanup (w : World) : World :=
  if bool_decide (is_Some (ml_models w !! "sana_sprint"))
  then set_ml_models (base.delete "sana_sprint") w
  else w.

(** The body of the [try] up to the [yield]. *)
Definition lifetime_load (env : Env) : M unit :=
  let device := if cuda_is_available env then "cuda" else "cpu" in
  let model_path := default "./sana-local" (getenv_model_path env) in
  pipeline ← lift (from_pretrained env model_path);
  match pipeline_to env pipeline device with
  | Some e => raise e
  | None =>
      modify (set_ml_models (insert "sana_sprint" (VPipeline pipeline)));;
      modify (set_ml_models (insert "device" (VStr device)))
  end.

(** Entering the context manager: runs to the [yield]; a failure is
    re-raised as [RuntimeError] after the [finally] block has run. *)
Definition lifetime_enter (env : Env) : M unit :=
  fun w =>
    match lifetime_load env w with
    | (inr tt, w') => (inr tt, w')
    | (inl e, w') =>
        (inl (RuntimeError ("Failed to load model: " +:+ exc_str e)),
         lifetime_cleanup w')
    end.

(** Leaving the context manager: resumes after the [yield], with the
    exception thrown into it, if any. *)
Definition lifetime_exit (thrown : option Exception) : M unit :=
  fun w =>
    match thrown with
    | None => (inr tt, lifetime_cleanup w)
    | Some e =>
        (inl (RuntimeError ("Failed to load model: " +:+ exc_str e)),
         lifetime_cleanup w)
    end.

(** ** [generate_image] (lines 60-90) *)

Record GenerationRequest := mkRequest {
  prompt : string;
  seed : option Z
}.

(** The number of inference steps written in the call on line 68. *)
Definition num_inference_steps : Z := 2.

(** Calling the object stored under ["sana_sprint"].  With a generator the
    noise comes from it; without one it comes from torch's default
    generator, whose state moves on. *)
Definition call_pipeline (pipeline : Value) (prompt : string) (steps : Z)
    (generator : option Rng) : M Image :=
  fun w =>
    match pipeline with
    | VStr _ => (inl (TypeError "'str' object is not callable"), w)
    | VPipeline p =>
        let w1 := set_pipeline_calls (fun l => l ++ [mkCall prompt steps generator]) w in
        match generator with
        | Some g => ((run p prompt steps g).1, w1)
        | None =>
            let '(r, g') := run p prompt steps (default_rng w) in
            (r, set_default_rng (fun _ => g') w1)
        end
    end.

(** Line 64: [torch.Generator(device=device).manual_seed(seed) if seed else
    None].  The condition is the truth value of [seed]: [None] and [0] are
    false. *)
Definition make_generator (env : Env) (device : option Value) (seed : option Z)
    : M (option Rng) :=
  match seed with
  | None => mret None
  | Some s =>
      if bool_decide (s = 0) then mret None
      else g ← lift (manual_seed env device s); mret (Some g)
  end.

(** Lines 64-70: the raw image. *)
Definition synthesize (env : Env) (pipeline : Value) (device : option Value)
    (prompt : string) (seed : option Z) : M Image :=
  generator ← make_generator env device seed;
  call_pipeline pipeline prompt num_inference_steps generator.

Definition generate_image (env : Env) (pipeline : Value) (device : option Value)
    (prompt : string) (seed : option Z) : M Image :=
  image ← synthesize env pipeline device prompt seed;
  box ← lift (crop_box (img_width image) (img_height image));
  mret (crop image box).

(** ** The endpoints (lines 92-130) *)

Record Response := mkResponse {
  content : Bytes;
  media_type : string
}.

Record HTTPException := mkHTTPException {
  status_code : Z;
  detail : string
}.

Record Health := mkHealth {
  status : string;
  model_loaded : bool
}.

Definition health_check (w : World) : Health :=
  mkHealth "ok" (bool_decide (is_Some (ml_models w !! "sana_sprint"))).

(** The argument vector of lines 119-122. *)
Definition cjpeg_argv (tmp_jpg tmp_bmp : string) : list string :=
  ["cjpeg"; "-quality"; "85"; "-progressive"; "-outfile"; tmp_jpg; tmp_bmp].

(** Lines 113-124: the two nested [with] blocks. *)
Definition encode_jpeg (env : Env) (pil_image : Image) : M Bytes :=
  with_temp false ".bmp" (fun tmp_bmp =>
    image_save env pil_image (name tmp_bmp);;
    with_temp false ".jpg" (fun tmp_jpg =>
      subprocess_run env (cjpeg_argv (name tmp_jpg) (name tmp_bmp)) true;;
      read_file (name tmp_jpg))).

(** The body of the [try] block. *)
Definition generate_body (env : Env) (pipeline : Value) (device : option Value)
    (request : GenerationRequest) : M Response :=
  pil_image ← generate_image env pipeline device (prompt request) (seed request);
  img_data ← encode_jpeg env pil_image;
  mret (mkResponse img_data "image/jpeg").

Definition api_generate_image (env : Env) (request : GenerationRequest)
    (w : World) : (HTTPException + Response) * World :=
  let pipeline := ml_models w !! "sana_sprint" in
  let device := ml_models w !! "device" in
  match pipeline with
  | Some p =>
      if truthy p then
        match generate_body env p device request w with
        | (inr resp, w') => (inr resp, w')
        | (inl e, w') =>
            (inl (mkHTTPException 500 ("Image generation failed: " +:+ exc_str e)), w')
        end
      else (inl (mkHTTPException 500 "Image generation model not available"), w)
  | None => (inl (mkHTTPException 500 "Image generation model not available"), w)
  end.

(** ** The application between start-up and shutdown *)

Inductive HttpRequest :=
| GetHealth
| PostGenerate (body : GenerationRequest).

Inductive HttpReply :=
| HealthReply (h : Health)
| GenerateReply (r : HTTPException + Response).

Definition handle (env : Env) (req : HttpRequest) (w : World) : HttpReply * World :=
  match req with
  | GetHealth => (HealthReply (health_check w), w)
  | PostGenerate body =>
      let '(r, w') := api_generate_image env body w in (GenerateReply r, w')
  end.

(** Requests handled one after the other. *)
Fixpoint serve (env : Env) (reqs : list HttpRequest) (w : World)
    : list HttpReply * World :=
  match reqs with
  | [] => ([], w)
  | req :: rest =>
      let '(reply, w1) := handle env req w in
      let '(replies, w2) := serve env rest w1 in
      (reply :: replies, w2)
  end.

(** ** Vocabulary of the statements *)

(** The integer nearest to [m / 2^n], ties to even: the rounding of
    binary64 on a mantissa that carries [n] digits too many. *)
Definition round_half_even (m n : Z) : Z :=
  let q := m / 2 ^ n in
  let r := m mod 2 ^ n in
  if 2 * r <? 2 ^ n then q
  else if 2 ^ n <? 2 * r then q + 1
  else if Z.even q then q else q + 1.

(** Two worlds that differ at most in the model-side state: the call trace
    and the default generator. *)
Definition same_outside_model (w w' : World) : Prop :=
  ml_models w' = ml_models w /\ environ_path w' = environ_path w /\
  fs w' = fs w /\ tmp_seq w' = tmp_seq w /\ spawned w' = spawned w.

(** The names of the two temporary files of an encode step that starts in
    world [w]. *)
Definition bmp_path (w : World) : string := tmp_name (tmp_seq w) ".bmp".
Definition jpg_path (w : World) : string := tmp_name (S (tmp_seq w)) ".jpg".

(** The world in which the encoder is started: both files exist, the first
    holds the bitmap. *)
Definition staged (data : Bytes) (w : World) : World :=
  set_tmp_seq S (set_fs (insert (jpg_path w) [])
    (set_fs (insert (bmp_path w) data)
       (set_tmp_seq S (set_fs (insert (bmp_path w) []) w)))).

(** The same collaborators with other programs on disk. *)
Definition with_executables (bins : gmap string Program) (env : Env) : Env :=
  mkEnv (cuda_is_available env) (getenv_model_path env) (from_pretrained env)
        (pipeline_to env) (manual_seed env) (save_bmp env) bins.

(** The calls of the model capability that one [POST /generate] adds to
    the trace: one call, with the prompt as sent, when a pipeline is loaded
    and the generator could be built; none otherwise. *)
Definition expected_calls (env : Env) (req : GenerationRequest) (w : World)
    : list PipelineCall :=
  match ml_models w !! "sana_sprint" with
  | Some (VPipeline _) =>
      match (make_generator env (ml_models w !! "device") (seed req) w).1 with
      | inr g => [mkCall (prompt req) num_inference_steps g]
      | inl _ => []
      end
  | _ => []
  end.

(** The health replies among the replies of a run. *)
Definition health_replies (replies : list HttpReply) : list Health :=
  omap (fun r => match r with HealthReply h => Some h | GenerateReply _ => None end)
       replies.

(** "Both temporary files are removed before the request completes." *)
Definition temp_files_removed (env : Env) (req : GenerationRequest) (w : World) : Prop :=
  let w' := (api_generate_image env req w).2 in
  fs w' !! bmp_path w = None /\ fs w' !! jpg_path w = None.

(** "An empty prompt is rejected before the model capability is invoked." *)
Definition empty_prompt_rejected (env : Env) (req : GenerationRequest) (w : World) : Prop :=
  prompt req = EmptyString ->
  let '(r, w') := api_generate_image env req w in
  (exists e, r = inl e) /\ pipeline_calls w' = pipeline_calls w /\
  fs w' = fs w /\ spawned w' = spawned w.

(** The request gets as far as starting the encoder: a pipeline is stored,
    the image has been generated and the bitmap saved. *)
Definition reaches_encoder (env : Env) (req : GenerationRequest) (w : World) : Prop :=
  exists p im w1 data,
    ml_models w !! "sana_sprint" = Some (VPipeline p) /\
    generate_image env (VPipeline p) (ml_models w !! "device") (prompt req) (seed req) w
      = (inr im, w1) /\
    save_bmp env im = inr data.

(** "A missing encoder is detected at or before first use as a distinct,
    clearly labelled condition": either start-up refuses to run, or a
    request that reaches the encoder is given a reply that tells this
    condition apart, that is, a reply that the handler gives for no request
    in any deployment whose encoder is on the path. *)
Definition absent_encoder_is_distinct (env : Env) (req : GenerationRequest)
    (w0 : World) : Prop :=
  which env (environ_path w0) "cjpeg" = None ->
  match lifetime_enter env w0 with
  | (inl _, _) => True
  | (inr _, w1) =>
      reaches_encoder env req w1 ->
      forall env' req' w',
        is_Some (which env' (environ_path w') "cjpeg") ->
        (api_generate_image env' req' w').1 <> (api_generate_image env req w1).1
  end.

(** "Two separate runs with the same prompt and seed give the same raw
    image", for runs that follow one another in the same process. *)
Definition reproducible (env : Env) (pipeline : Value) (device : option Value)
    (prompt : string) (seed : option Z) (w : World) : Prop :=
  let '(r1, w1) := synthesize env pipeline device prompt seed w in
  let '(r2, _) := synthesize env pipeline device prompt seed w1 in
  r1 = r2.

(** The size of a crop box. *)
Definition box_width (b : Box) : Z := box_right b - box_left b.
Definition box_height (b : Box) : Z := box_bottom b - box_top b.

(** The prompts of the [POST /generate] requests of a run, in order. *)
Definition generate_prompts (reqs : list HttpRequest) : list string :=
  omap (fun r => match r with PostGenerate body => Some (prompt body) | GetHealth => None end)
       reqs.

(** What a process without a loaded model answers. *)
Definition reply_unloaded (req : HttpRequest) : HttpReply :=
  match req with
  | GetHealth => HealthReply (mkHealth "ok" false)
  | PostGenerate _ =>
      GenerateReply (inl (mkHTTPException 500 "Image generation model not available"))
  end.

(** The device name and the model directory that [lifetime] works out. *)
Definition chosen_device (env : Env) : string :=
  if cuda_is_available env then "cuda" else "cpu".
Definition chosen_model_path (env : Env) : string :=
  default "./sana-local" (getenv_model_path env).

(** ** A concrete deployment, for running the model *)

Module Demo.

(** A pipeline whose 1024 x 1024 output depends on the prompt length and
    on the generator state it draws from. *)
Definition raw_image (g : Rng) (text : string) : Image :=
  mkImage 1024 1024 (fun x y => g + Z.of_nat (String.length text) + x + y).

Definition pipeline : Pipeline :=
  mkPipeline (fun text steps g => (inr (raw_image g text), g + 1)).

Definition bmp_bytes : Bytes := [Byte.x42; Byte.x4d].
Definition jpeg_bytes : Bytes := [Byte.xff; Byte.xd8; Byte.xff; Byte.xd9].

(** An encoder that writes a JPEG to the path after [-outfile] when its
    input file exists. *)
Definition cjpeg_ok : Program :=
  fun argv read =>
    match argv with
    | [_; _; _; _; _; out; inp] =>
        match read inp with
        | Some _ => (0, [(out, jpeg_bytes)])
        | None => (2, [])
        end
    | _ => (2, [])
    end.

(** An encoder that exits with status 1 and writes nothing. *)
Definition cjpeg_exit1 : Program := fun _ _ => (1, []).

Definition env_with (bins : gmap string Program) : Env :=
  {| cuda_is_available := false;
     getenv_model_path := None;
     from_pretrained := fun _ => inr pipeline;
     pipeline_to := fun _ _ => None;
     manual_seed := fun _ s => inr s;
     save_bmp := fun _ => inr bmp_bytes;
     executables := bins |}.

Definition env : Env := env_with {[ "/opt/mozjpeg/bin/cjpeg" := cjpeg_ok ]}.
Definition env_exit1 : Env := env_with {[ "/opt/mozjpeg/bin/cjpeg" := cjpeg_exit1 ]}.
Definition env_no_encoder : Env := env_with ∅.

(** The process before the module is imported, and right after. *)
Definition fresh : World :=
  {| ml_models := ∅; environ_path := ["/usr/local/bin"; "/usr/bin"];
     fs := ∅; tmp_seq := 0; default_rng := 7;
     pipeline_calls := []; spawned := [] |}.

Definition booted : World := module_init fresh.

(** The process after a successful start-up. *)
Definition ready : World := (lifetime_enter env booted).2.

Definition cat : GenerationRequest := mkRequest "a cat" None.

(** The cropped image of the first unseeded "a cat" request, and the world
    in which its encode step starts. *)
Definition cat_image : Image :=
  crop (raw_image 7 "a cat") (mkBox 171 0 853 1024).

Definition after_cat : World :=
  (generate_image env (VPipeline pipeline) (Some (VStr "cpu")) "a cat" None ready).2.

Definition cat_seed0 : GenerationRequest := mkRequest "a cat" (Some 0).
Definition cat_seed5 : GenerationRequest := mkRequest "a cat" (Some 5).
Definition empty_prompt : GenerationRequest := mkRequest EmptyString None.

End Demo.

(** ** Deployments in which a collaborator fails *)

Module Faults.

(** A pipeline that raises on every call. *)
Definition broken_pipeline : Pipeline :=
  mkPipeline (fun _ _ g => (inl (LibraryError "CUDA out of memory"), g)).

(** A started process whose pipeline is the broken one. *)
Definition ready_broken : World :=
  set_ml_models (insert "sana_sprint" (VPipeline broken_pipeline)) Demo.ready.

(** That process after one unseeded "a cat" request has reached the model. *)
Definition after_broken : World :=
  set_default_rng (fun _ => 7)
    (set_pipeline_calls (fun l => l ++ [mkCall "a cat" 2 None]) ready_broken).

(** A torch whose generators take seeds from [-2^63] up to [2^64] only. *)
Definition env_strict : Env :=
  mkEnv false None (fun _ => inr Demo.pipeline) (fun _ _ => None)
    (fun _ s => if bool_decide (- 2 ^ 63 <= s < 2 ^ 64) then inr s
                else inl (RuntimeError "Overflow when unpacking long"))
    (fun _ => inr Demo.bmp_bytes)
    {[ "/opt/mozjpeg/bin/cjpeg" := Demo.cjpeg_ok ]}.

(** A PIL whose save fails after the first byte of the header. *)
Definition env_unsavable : Env :=
  mkEnv false None (fun _ => inr Demo.pipeline) (fun _ _ => None)
    (fun _ s => inr s)
    (fun _ => inl (LibraryError "[Errno 28] No space left on device", Some [Byte.x42]))
    {[ "/opt/mozjpeg/bin/cjpeg" := Demo.cjpeg_ok ]}.

(** A model directory that does not exist. *)
Definition env_unloadable : Env :=
  mkEnv false None (fun _ => inl (LibraryError "./sana-local is not a directory"))
    (fun _ _ => None) (fun _ s => inr s) (fun _ => inr Demo.bmp_bytes)
    {[ "/opt/mozjpeg/bin/cjpeg" := Demo.cjpeg_ok ]}.

(** A machine with an accelerator, with another [cjpeg] earlier on the
    path. *)
Definition env_cuda : Env :=
  mkEnv true (Some "/models/sana") (fun _ => inr Demo.pipeline) (fun _ _ => None)
    (fun _ s => inr s) (fun _ => inr Demo.bmp_bytes)
    {[ "/usr/bin/cjpeg" := Demo.cjpeg_exit1;
       "/opt/mozjpeg/bin/cjpeg" := Demo.cjpeg_ok ]}.

(** A pipeline that fails for want of a file that happens to be called
    [cjpeg], and a started process that holds it. *)
Definition enoent_pipeline : Pipeline :=
  mkPipeline (fun _ _ g => (inl (FileNotFoundError "cjpeg"), g)).

Definition ready_enoent : World :=
  set_ml_models (insert "sana_sprint" (VPipeline enoent_pipeline)) Demo.ready.

(** An encoder that is killed by [SIGKILL]. *)
Definition cjpeg_killed : Program := fun _ _ => (-9, []).

Definition env_killed : Env :=
  mkEnv false None (fun _ => inr Demo.pipeline) (fun _ _ => None)
    (fun _ s => inr s) (fun _ => inr Demo.bmp_bytes)
    {[ "/opt/mozjpeg/bin/cjpeg" := cjpeg_killed ]}.

(** An encoder that reports success without writing anything. *)
Definition cjpeg_silent : Program := fun _ _ => (0, []).

Definition env_silent : Env :=
  mkEnv false None (fun _ => inr Demo.pipeline) (fun _ _ => None)
    (fun _ s => inr s) (fun _ => inr Demo.bmp_bytes)
    {[ "/opt/mozjpeg/bin/cjpeg" := cjpeg_silent ]}.

End Faults.

(** * Properties *)

(** ** Running the model *)

Example crop_square : crop_box 1024 1024 = inr (mkBox 171 0 853 1024).
Proof. vm_compute. reflexivity. Qed.

Example crop_tall : crop_box 1000 3000 = inr (mkBox 0 750 1000 2250).
Proof. vm_compute. reflexivity. Qed.

(** A source of 2 x 1 pixels gets a box of width 0. *)
Example crop_flat : crop_box 2 1 = inr (mkBox 1 0 1 1).
Proof. vm_compute. reflexivity. Qed.

Example generate_cat :
  (api_generate_image Demo.env Demo.cat Demo.ready).1 =
  inr (mkResponse Demo.jpeg_bytes "image/jpeg").
Proof. vm_compute. reflexivity. Qed.

Example generate_cat_seeded :
  pipeline_calls (api_generate_image Demo.env Demo.cat_seed5 Demo.ready).2 =
  [mkCall "a cat" 2 (Some 5)].
Proof. vm_compute. reflexivity. Qed.

Example generate_cat_seed0 :
  pipeline_calls (api_generate_image Demo.env Demo.cat_seed0 Demo.ready).2 =
  [mkCall "a cat" 2 None].
Proof. vm_compute. reflexivity. Qed.

Example generate_cat_exit1 :
  (api_generate_image Demo.env_exit1 Demo.cat Demo.ready).1 =
  inl (mkHTTPException 500
    "Image generation failed: Command '['cjpeg', '-quality', '85', '-progressive', '-outfile', '/tmp/tmp1.jpg', '/tmp/tmp0.bmp']' returned non-zero exit status 1.").
Proof. vm_compute. reflexivity. Qed.

Example generate_cat_killed :
  (api_generate_image Faults.env_killed Demo.cat Demo.ready).1 =
  inl (mkHTTPException 500
    "Image generation failed: Command '['cjpeg', '-quality', '85', '-progressive', '-outfile', '/tmp/tmp1.jpg', '/tmp/tmp0.bmp']' died with <Signals.SIGKILL: 9>.").
Proof. vm_compute. reflexivity. Qed.

Example died_with_unnamed_signal :
  exc_str (CalledProcessError (-40) ["cjpeg"]) =
  "Command '['cjpeg']' died with unknown signal 40.".
Proof. vm_compute. reflexivity. Qed.

Example health_over_time :
  map (fun w => model_loaded (health_check w))
      [Demo.booted; Demo.ready; (lifetime_exit None Demo.ready).2] =
  [false; true; false].
Proof. vm_compute. reflexivity. Qed.

(** ** binary64: digits, shifts and rounding *)

Lemma digits2_pos_size p : digits2_pos p = Pos.size p.
Proof. induction p; simpl; congruence. Qed.

Lemma Zdigits2_bounds m d :
  0 < d -> 2 ^ (d - 1) <= m < 2 ^ d -> Zdigits2 m = d.
Proof.
  intros Hd [Hlo Hhi].
  assert (0 < m) by (pose proof (Z.pow_pos_nonneg 2 (d - 1)); lia).
  destruct m as [|p|p]; try lia.
  simpl. rewrite digits2_pos_size.
  assert (Z.log2 (Z.pos p) = d - 1) as Hl.
  { apply Z.log2_unique; [lia|]. replace (Z.succ (d - 1)) with d by lia. lia. }
  destruct p; simpl in Hl; simpl; rewrite ?Pos2Z.inj_succ; lia.
Qed.

Lemma shr_1_nonneg m r s :
  0 <= m ->
  shr_1 (Build_shr_record m r s) = Build_shr_record (m / 2) (Z.odd m) (r || s).
Proof.
  intros Hm. destruct m as [|p|p]; try lia; [reflexivity|].
  destruct p; cbn [shr_1].
  - f_equal. rewrite Pos2Z.inj_xI. Z.to_euclidean_division_equations; lia.
  - f_equal. rewrite Pos2Z.inj_xO. Z.to_euclidean_division_equations; lia.
  - reflexivity.
Qed.

Lemma iter_pos_nat {A} (f : A -> A) p x :
  SpecFloat.iter_pos f p x = Nat.iter (Pos.to_nat p) f x.
Proof.
  revert x. induction p; intros x; cbn [SpecFloat.iter_pos].
  - rewrite !IHp. rewrite Pos2Nat.inj_xI.
    replace (S (2 * Pos.to_nat p))%nat with (Pos.to_nat p + (Pos.to_nat p + 1))%nat by lia.
    rewrite !Nat.iter_add. reflexivity.
  - rewrite !IHp. rewrite Pos2Nat.inj_xO.
    replace (2 * Pos.to_nat p)%nat with (Pos.to_nat p + Pos.to_nat p)%nat by lia.
    rewrite Nat.iter_add. reflexivity.
  - reflexivity.
Qed.

Lemma shr_nat_iter k m r s :
  0 <= m ->
  Nat.iter (S k) shr_1 (Build_shr_record m r s) =
  Build_shr_record (m / 2 ^ Z.of_nat (S k)) (Z.testbit m (Z.of_nat k))
    (r || s || negb (m mod 2 ^ Z.of_nat k =? 0)).
Proof.
  intros Hm. induction k as [|k IH].
  - rewrite Nat.iter_succ. cbn [Nat.iter nat_rect]. rewrite shr_1_nonneg by assumption.
    change (Z.of_nat 0) with 0. change (Z.of_nat 1) with 1.
    rewrite Z.pow_0_r, Z.pow_1_r, Z.mod_1_r, Z.bit0_odd. cbn.
    rewrite orb_false_r. reflexivity.
  - rewrite Nat.iter_succ, IH.
    assert (0 < 2 ^ Z.of_nat (S k)) by (apply Z.pow_pos_nonneg; lia).
    rewrite shr_1_nonneg by (apply Z.div_pos; lia).
    f_equal.
    + rewrite Z.div_div by lia. f_equal.
      rewrite (Nat2Z.inj_succ (S k)), Z.pow_succ_r by lia. lia.
    + rewrite Z.testbit_odd, Z.shiftr_div_pow2 by lia. reflexivity.
    + rewrite (Nat2Z.inj_succ k).
      assert (Hn : 0 <= Z.of_nat k) by lia. clear IH H.
      set (n := Z.of_nat k) in *. clearbody n.
      assert (negb (m mod 2 ^ Z.succ n =? 0) =
              Z.testbit m n || negb (m mod 2 ^ n =? 0)) as ->.
      { rewrite Z.testbit_odd, Z.shiftr_div_pow2 by lia.
        assert (0 < 2 ^ n) by (apply Z.pow_pos_nonneg; lia).
        rewrite Z.pow_succ_r by lia.
        pose proof (Z.div_mod m (2 ^ n)).
        pose proof (Z.mod_pos_bound m (2 ^ n)).
        pose proof (Z.div_mod (m / 2 ^ n) 2).
        pose proof (Z.mod_pos_bound (m / 2 ^ n) 2).
        rewrite (Zodd_mod (m / 2 ^ n)).
        set (q := m / 2 ^ n) in *. set (t := m mod 2 ^ n) in *.
        set (b := q mod 2) in *.
        assert (m mod (2 * 2 ^ n) = b * 2 ^ n + t) as ->.
        { symmetry. apply Z.mod_unique_pos with (q / 2); nia. }
        destruct (Z.eqb_spec b 1), (Z.eqb_spec t 0), (Z.eqb_spec (b * 2 ^ n + t) 0);
          cbn; try reflexivity; nia. }
      destruct (Z.testbit m n), r, s, (m mod 2 ^ n =? 0); reflexivity.
Qed.

Lemma shr_pos m r s e n :
  0 <= m -> 0 < n ->
  shr (Build_shr_record m r s) e n =
  (Build_shr_record (m / 2 ^ n) (Z.testbit m (n - 1))
     (r || s || negb (m mod 2 ^ (n - 1) =? 0)), e + n).
Proof.
  intros Hm Hn. destruct n as [|p|p]; try lia.
  cbn [shr]. rewrite iter_pos_nat.
  destruct (Pos2Nat.is_succ p) as [k Hk]. rewrite Hk.
  rewrite shr_nat_iter by assumption.
  assert (Z.of_nat (S k) = Z.pos p) as -> by lia.
  assert (Z.of_nat k = Z.pos p - 1) as -> by lia.
  reflexivity.
Qed.

Lemma shr_fexp_shift mx ex l n :
  Zdigits2 mx = 53 + n -> 0 <= n -> -1074 <= ex + n ->
  shr_fexp 53 1024 mx ex l = shr (shr_record_of_loc mx l) ex n.
Proof.
  intros Hd Hn He. unfold shr_fexp, fexp, emin. rewrite Hd. f_equal. lia.
Qed.

Lemma shr_zero mrs e : shr mrs e 0 = (mrs, e).
Proof. reflexivity. Qed.

(** A 53-digit mantissa that sits at or just above the exact value is
    returned as it is. *)
Lemma bra_keep mx ex lx :
  2 ^ 52 <= mx < 2 ^ 53 -> -1074 <= ex <= 971 ->
  lx = loc_Exact \/ lx = loc_Inexact Lt ->
  binary_round_aux 53 1024 false mx ex lx = S754_finite false (Z.to_pos mx) ex.
Proof.
  intros Hm He Hl.
  assert (Hd : Zdigits2 mx = 53 + 0) by (apply Zdigits2_bounds; lia).
  unfold binary_round_aux.
  rewrite (shr_fexp_shift mx ex lx 0 Hd) by lia. rewrite shr_zero.
  assert (round_nearest_even (shr_m (shr_record_of_loc mx lx))
            (loc_of_shr_record (shr_record_of_loc mx lx)) = mx) as ->.
  { destruct Hl; subst lx; reflexivity. }
  rewrite (shr_fexp_shift mx ex loc_Exact 0 Hd) by lia. rewrite shr_zero.
  cbn [shr_record_of_loc shr_m].
  destruct mx as [|p|p]; try lia. cbn [Z.to_pos].
  destruct (Z.leb_spec ex (1024 - 53)); [reflexivity | lia].
Qed.

(** An even 54-digit mantissa is halved exactly. *)
Lemma bra_halve mx ex lx :
  2 ^ 53 <= mx < 2 ^ 54 -> Z.even mx = true -> -1075 <= ex <= 970 ->
  binary_round_aux 53 1024 false mx ex lx =
  S754_finite false (Z.to_pos (mx / 2)) (ex + 1).
Proof.
  intros Hm Hev He.
  assert (Hd : Zdigits2 mx = 53 + 1) by (apply Zdigits2_bounds; lia).
  assert (Hd2 : Zdigits2 (mx / 2) = 53 + 0).
  { apply Zdigits2_bounds; [lia|]. change (2 ^ (53 + 0 - 1)) with (2 ^ 52).
    change (2 ^ (53 + 0)) with (2 ^ 53). change (2 ^ 53) with (2 * 2 ^ 52) in Hm.
    change (2 ^ 54) with (2 * 2 ^ 53) in Hm.
    Z.to_euclidean_division_equations; lia. }
  unfold binary_round_aux.
  rewrite (shr_fexp_shift mx ex lx 1 Hd) by lia.
  assert (shr (shr_record_of_loc mx lx) ex 1 =
          (shr_1 (shr_record_of_loc mx lx), ex + 1)) as -> by reflexivity.
  assert (exists s, shr_1 (shr_record_of_loc mx lx) = Build_shr_record (mx / 2) false s)
    as [s ->].
  { destruct lx as [|[]]; cbn [shr_record_of_loc]; rewrite shr_1_nonneg by lia;
      rewrite <- Z.negb_even, Hev; eexists; reflexivity. }
  assert (round_nearest_even (shr_m (Build_shr_record (mx / 2) false s))
            (loc_of_shr_record (Build_shr_record (mx / 2) false s)) = mx / 2) as ->.
  { destruct s; reflexivity. }
  rewrite (shr_fexp_shift (mx / 2) (ex + 1) loc_Exact 0 Hd2) by lia.
  rewrite shr_zero. cbn [shr_record_of_loc shr_m].
  assert (0 < mx / 2) by (Z.to_euclidean_division_equations; lia).
  destruct (mx / 2) as [|p|p]; try lia. cbn [Z.to_pos].
  destruct (Z.leb_spec (ex + 1) (1024 - 53)); [reflexivity | lia].
Qed.

Lemma target_ratio_eq : target_ratio = S754_finite false 6004799503160661 (-53).
Proof. vm_compute. reflexivity. Qed.

Lemma pos_iter_xO p k : Z.pos (Pos.iter xO p k) = Z.pos p * 2 ^ Z.pos k.
Proof.
  induction k as [|k IH] using Pos.peano_ind.
  - cbn [Pos.iter]. rewrite Pos2Z.inj_xO. change (2 ^ 1) with 2. lia.
  - rewrite Pos.iter_succ, Pos2Z.inj_xO, IH, Pos2Z.inj_succ, Z.pow_succ_r by lia. lia.
Qed.

(** [float(w)] below [2^52]: the integer itself, with a 53-bit mantissa. *)
Lemma binary_normalize_int w d :
  1 <= d <= 52 -> 2 ^ (d - 1) <= w < 2 ^ d ->
  binary_normalize 53 1024 w 0 false =
  S754_finite false (Z.to_pos (w * 2 ^ (53 - d))) (d - 53).
Proof.
  intros Hd Hw.
  assert (Hdig : Zdigits2 w = d) by (apply Zdigits2_bounds; lia).
  assert (0 < w) by (pose proof (Z.pow_pos_nonneg 2 (d - 1)); lia).
  destruct w as [|p|p]; try lia.
  cbn [binary_normalize]. unfold binary_round.
  cbn [Zdigits2] in Hdig. rewrite Z.add_0_r, Hdig.
  unfold fexp, emin, shl_align.
  replace (Z.max (d - 53) (3 - 1024 - 53) - 0) with (d - 53) by lia.
  replace (Z.max (d - 53) (3 - 1024 - 53)) with (d - 53) by lia.
  destruct (d - 53) as [|k|k] eqn:Hk; try lia.
  assert (Z.pos (Pos.iter xO p k) = Z.pos p * 2 ^ (53 - d)) as Hm.
  { rewrite pos_iter_xO. f_equal. f_equal. lia. }
  rewrite Hm, <- Hk.
  apply bra_keep; [|lia|left; reflexivity].
  assert (E52 : 2 ^ 52 = 2 ^ (d - 1) * 2 ^ (53 - d)).
  { rewrite <- Z.pow_add_r by lia. f_equal. lia. }
  assert (E53 : 2 ^ 53 = 2 ^ d * 2 ^ (53 - d)).
  { rewrite <- Z.pow_add_r by lia. f_equal. lia. }
  rewrite E52, E53.
  assert (0 < 2 ^ (53 - d)) by (apply Z.pow_pos_nonneg; lia).
  nia.
Qed.

Lemma div_eucl_eq a b : Z.div_eucl a b = (a / b, a mod b).
Proof. unfold Z.div, Z.modulo. destruct (Z.div_eucl a b); reflexivity. Qed.

(** Dividing a normal float whose mantissa is a multiple of 4 by
    [target_ratio] yields exactly one and a half times the float. *)
Lemma f64_div_target_ratio H e :
  2 ^ 52 <= H < 2 ^ 53 -> H mod 4 = 0 -> -1074 <= e <= 900 ->
  f64_div (S754_finite false (Z.to_pos H) e) target_ratio =
  if 3 * (H / 2) <? 2 ^ 53
  then S754_finite false (Z.to_pos (3 * (H / 2))) e
  else S754_finite false (Z.to_pos (3 * (H / 4))) (e + 1).
Proof.
  intros HH H4 He. rewrite target_ratio_eq. unfold f64_div, SFdiv.
  assert (HposH : Z.pos (Z.to_pos H) = H) by (apply Z2Pos.id; lia).
  assert (Hcore : SFdiv_core_binary 53 1024 (Z.pos (Z.to_pos H)) e 6004799503160661 (-53) =
          (3 * (H / 2), e,
           loc_Inexact (match H + 1 ?= 6004799503160661 with Gt => Gt | _ => Lt end))).
  { rewrite HposH. unfold SFdiv_core_binary.
    rewrite (Zdigits2_bounds H 53) by lia.
    change (Zdigits2 6004799503160661) with 53.
    unfold fexp, emin.
    replace (Z.min (Z.max (53 + e - (53 + -53) - 53) (3 - 1024 - 53)) (e - -53)) with e by lia.
    replace (e - -53 - e) with 53 by lia.
    rewrite Z.shiftl_mul_pow2 by lia. rewrite div_eucl_eq.
    assert (H * 2 ^ 53 / 6004799503160661 = 3 * (H / 2)) as ->.
    { Z.to_euclidean_division_equations; lia. }
    assert (H * 2 ^ 53 mod 6004799503160661 = H / 2) as ->.
    { Z.to_euclidean_division_equations; lia. }
    f_equal. unfold new_location. change (Z.even 6004799503160661) with false.
    cbv iota. unfold new_location_odd.
    destruct (Z.eqb_spec (H / 2) 0) as [E|_].
    { Z.to_euclidean_division_equations; lia. }
    replace (2 * (H / 2) + 1) with (H + 1) by (Z.to_euclidean_division_equations; lia).
    destruct (H + 1 ?= 6004799503160661); reflexivity. }
  rewrite Hcore.
  destruct (Z.ltb_spec (3 * (H / 2)) (2 ^ 53)) as [Hlt|Hge].
  - apply bra_keep; [Z.to_euclidean_division_equations; lia|lia|].
    right. f_equal.
    destruct (Z.compare_spec (H + 1) 6004799503160661); try reflexivity.
    Z.to_euclidean_division_equations; lia.
  - rewrite bra_halve.
    + f_equal. f_equal. Z.to_euclidean_division_equations; lia.
    + Z.to_euclidean_division_equations; lia.
    + rewrite Z.even_mul. apply orb_true_iff. right.
      rewrite Z.even_spec. exists (H / 4). Z.to_euclidean_division_equations; lia.
    + lia.
Qed.

Lemma round_bits mx n :
  0 <= mx -> 0 < n ->
  round_nearest_even (mx / 2 ^ n)
    (loc_of_shr_record
       (Build_shr_record (mx / 2 ^ n) (Z.testbit mx (n - 1))
          (false || false || negb (mx mod 2 ^ (n - 1) =? 0)))) =
  round_half_even mx n.
Proof.
  intros Hm Hn. unfold round_half_even.
  assert (Hp : 0 < 2 ^ (n - 1)) by (apply Z.pow_pos_nonneg; lia).
  assert (E : 2 ^ n = 2 * 2 ^ (n - 1)).
  { rewrite <- Z.pow_succ_r by lia. f_equal. lia. }
  pose proof (Z.testbit_spec' mx (n - 1) ltac:(lia)) as Hb.
  rewrite E. set (p := 2 ^ (n - 1)) in *.
  pose proof (Z.div_mod mx p ltac:(lia)).
  pose proof (Z.mod_pos_bound mx p ltac:(lia)).
  pose proof (Z.div_mod (mx / p) 2 ltac:(lia)).
  pose proof (Z.mod_pos_bound (mx / p) 2 ltac:(lia)).
  assert (Hq : mx / (2 * p) = mx / p / 2) by (rewrite Z.mul_comm, Z.div_div by lia; reflexivity).
  assert (Hr : mx mod (2 * p) = (mx / p mod 2) * p + mx mod p).
  { symmetry. apply Z.mod_unique_pos with (mx / p / 2); nia. }
  rewrite Hq, Hr, <- Hb.
  destruct (Z.testbit mx (n - 1)); cbn [Z.b2z orb];
    destruct (Z.eqb_spec (mx mod p) 0) as [E0|E0]; cbn [negb loc_of_shr_record round_nearest_even].
  - rewrite E0.
    destruct (Z.ltb_spec (2 * (1 * p + 0)) (2 * p)); [lia|].
    destruct (Z.ltb_spec (2 * p) (2 * (1 * p + 0))); [lia|]. reflexivity.
  - destruct (Z.ltb_spec (2 * (1 * p + mx mod p)) (2 * p)); [lia|].
    destruct (Z.ltb_spec (2 * p) (2 * (1 * p + mx mod p))); [|lia]. reflexivity.
  - rewrite E0. destruct (Z.ltb_spec (2 * (0 * p + 0)) (2 * p)); [|lia]. reflexivity.
  - destruct (Z.ltb_spec (2 * (0 * p + mx mod p)) (2 * p)); [|lia]. reflexivity.
Qed.

Lemma round_half_even_bounds m n :
  0 <= m -> 0 <= n ->
  m / 2 ^ n <= round_half_even m n <= m / 2 ^ n + 1.
Proof.
  intros. unfold round_half_even.
  repeat match goal with |- context [if ?b then _ else _] => destruct b end; lia.
Qed.

(** Rounding an exact product or sum that carries [n] digits too many. *)
Lemma bra_round mx ex n :
  0 < n -> 2 ^ (52 + n) <= mx < 2 ^ (53 + n) -> -1074 <= ex + n <= 970 ->
  exists M e,
    binary_round_aux 53 1024 false mx ex loc_Exact = S754_finite false M e /\
    ex + n <= e <= ex + n + 1 /\
    Z.pos M * 2 ^ (e - (ex + n)) = round_half_even mx n.
Proof.
  intros Hn Hm He.
  assert (Hpn : 0 < 2 ^ n) by (apply Z.pow_pos_nonneg; lia).
  assert (E52 : 2 ^ (52 + n) = 2 ^ 52 * 2 ^ n) by (apply Z.pow_add_r; lia).
  assert (E53 : 2 ^ (53 + n) = 2 ^ 53 * 2 ^ n) by (apply Z.pow_add_r; lia).
  assert (Hd : Zdigits2 mx = 53 + n).
  { apply Zdigits2_bounds; [lia|]. replace (53 + n - 1) with (52 + n) by lia. lia. }
  assert (Hq : 2 ^ 52 <= mx / 2 ^ n < 2 ^ 53).
  { split; [apply Z.div_le_lower_bound | apply Z.div_lt_upper_bound]; lia. }
  unfold binary_round_aux.
  rewrite (shr_fexp_shift mx ex loc_Exact n Hd) by lia.
  cbn [shr_record_of_loc]. rewrite shr_pos by lia.
  cbn [shr_m]. rewrite round_bits by lia.
  pose proof (round_half_even_bounds mx n ltac:(lia) ltac:(lia)) as Hb.
  set (R := round_half_even mx n) in *.
  destruct (Z.eq_dec R (2 ^ 53)) as [Etop|Ntop].
  - rewrite Etop.
    exists (Z.to_pos (2 ^ 52)), (ex + n + 1). split; [|split].
    + assert (Hd53 : Zdigits2 (2 ^ 53) = 53 + 1) by reflexivity.
      rewrite (shr_fexp_shift (2 ^ 53) (ex + n) loc_Exact 1 Hd53) by lia.
      assert (shr (shr_record_of_loc (2 ^ 53) loc_Exact) (ex + n) 1 =
              (Build_shr_record (2 ^ 52) false false, ex + n + 1)) as -> by reflexivity.
      cbn [shr_m]. change (2 ^ 52) with (Z.pos (Z.to_pos (2 ^ 52))) at 1. cbv iota.
      destruct (Z.leb_spec (ex + n + 1) (1024 - 53)); [reflexivity|lia].
    + lia.
    + replace (ex + n + 1 - (ex + n)) with 1 by lia. reflexivity.
  - assert (HR : 2 ^ 52 <= R < 2 ^ 53) by lia.
    exists (Z.to_pos R), (ex + n). split; [|split].
    + rewrite (shr_fexp_shift R (ex + n) loc_Exact 0) by (try apply Zdigits2_bounds; lia).
      rewrite shr_zero. cbn [shr_record_of_loc shr_m].
      destruct R as [|p|p]; try lia. cbn [Z.to_pos].
      destruct (Z.leb_spec (ex + n) (1024 - 53)); [reflexivity|lia].
    + lia.
    + rewrite Z.sub_diag, Z.pow_0_r, Z2Pos.id by lia. lia.
Qed.

Lemma round_half_even_cases m n :
  0 <= m -> 0 <= n ->
  exists q r, m = q * 2 ^ n + r /\ 0 <= r < 2 ^ n /\
    ((2 * r < 2 ^ n /\ round_half_even m n = q) \/
     (2 ^ n < 2 * r /\ round_half_even m n = q + 1) \/
     (2 * r = 2 ^ n /\ exists k, (q = 2 * k /\ round_half_even m n = q) \/
                              (q = 2 * k + 1 /\ round_half_even m n = q + 1))).
Proof.
  intros Hm Hn.
  assert (0 < 2 ^ n) by (apply Z.pow_pos_nonneg; lia).
  exists (m / 2 ^ n), (m mod 2 ^ n).
  pose proof (Z.div_mod m (2 ^ n) ltac:(lia)).
  pose proof (Z.mod_pos_bound m (2 ^ n) ltac:(lia)).
  split; [lia|]. split; [lia|]. unfold round_half_even.
  destruct (Z.ltb_spec (2 * (m mod 2 ^ n)) (2 ^ n)); [left; lia|].
  destruct (Z.ltb_spec (2 ^ n) (2 * (m mod 2 ^ n))); [right; left; lia|].
  right; right. split; [lia|].
  destruct (Z.even (m / 2 ^ n)) eqn:Ev.
  - apply Z.even_spec in Ev. destruct Ev as [k Hk]. exists k. left. lia.
  - rewrite <- Z.negb_odd in Ev. apply negb_false_iff, Z.odd_spec in Ev.
    destruct Ev as [k Hk]. exists k. right. lia.
Qed.

(** The integer part of the rounded product [h * target_ratio], on the
    mantissa [H = h * K] of [h]. *)
Lemma mul_ratio_floor h K n :
  0 < h -> 8 <= K -> 2 ^ 52 <= h * K < 2 ^ 53 ->
  (n = 53 /\ 2 ^ 105 <= h * K * 6004799503160661) \/
  (n = 52 /\ h * K * 6004799503160661 < 2 ^ 105) ->
  round_half_even (h * K * 6004799503160661) n / (2 ^ (53 - n) * K) = 2 * h / 3.
Proof.
  intros Hh HK HH Hn.
  pose proof (Z.div_mod (2 * h) 3 ltac:(lia)) as Hdm.
  pose proof (Z.mod_pos_bound (2 * h) 3 ltac:(lia)) as Hrho.
  set (q := 2 * h / 3) in *. set (rho := (2 * h) mod 3) in *.
  assert (HA : 2 * (h * K) = 3 * (q * K) + rho * K) by nia.
  set (H := h * K) in *. set (A := q * K) in *.
  destruct (round_half_even_cases (H * 6004799503160661) n) as (q' & r' & HP & Hr' & HR);
    [lia | lia |].
  set (R := round_half_even (H * 6004799503160661) n) in *.
  assert (Hgoal : q * (2 ^ (53 - n) * K) <= R < (q + 1) * (2 ^ (53 - n) * K)).
  { replace (q * (2 ^ (53 - n) * K)) with (2 ^ (53 - n) * A) by (unfold A; ring).
    replace ((q + 1) * (2 ^ (53 - n) * K)) with (2 ^ (53 - n) * A + 2 ^ (53 - n) * K)
      by (unfold A; ring).
    clearbody H A R q rho.
    assert (rho = 0 \/ rho = 1 \/ rho = 2) as Hcase by lia.
    destruct Hn as [[-> HP105] | [-> HP105]].
    - change (2 ^ (53 - 53)) with 1. change (2 ^ 53) with 9007199254740992 in *.
      change (2 ^ 52) with 4503599627370496 in *.
      change (2 ^ 105) with 40564819207303340847894502572032 in *.
      destruct Hcase as [-> | [-> | ->]];
        destruct HR as [[? ->] | [[? ->] | [? [k [[? ->] | [? ->]]]]]]; lia.
    - change (2 ^ (53 - 52)) with 2. change (2 ^ 53) with 9007199254740992 in *.
      change (2 ^ 52) with 4503599627370496 in *.
      change (2 ^ 105) with 40564819207303340847894502572032 in *.
      destruct Hcase as [-> | [-> | ->]];
        destruct HR as [[? ->] | [[? ->] | [? [k [[? ->] | [? ->]]]]]]; lia. }
  assert (0 < 2 ^ (53 - n) * K).
  { assert (0 < 2 ^ (53 - n)) by (apply Z.pow_pos_nonneg; lia). nia. }
  symmetry. apply Z.div_unique with (R - q * (2 ^ (53 - n) * K)); lia.
Qed.

Lemma int_of_float_neg_exp M e :
  e < 0 -> int_of_float (S754_finite false M e) = inr (Z.pos M / 2 ^ (- e)).
Proof.
  intros He. destruct e as [|p|p]; try lia.
  cbn [int_of_float]. rewrite Z.shiftr_div_pow2 by lia. reflexivity.
Qed.

Lemma log2_digits w :
  1 <= w < 2 ^ 50 ->
  exists d, 1 <= d <= 50 /\ 2 ^ (d - 1) <= w < 2 ^ d.
Proof.
  intros Hw. exists (Z.log2 w + 1).
  pose proof (Z.log2_spec w ltac:(lia)) as Hs.
  pose proof (Z.log2_nonneg w).
  replace (Z.log2 w + 1 - 1) with (Z.log2 w) by lia.
  replace (Z.succ (Z.log2 w)) with (Z.log2 w + 1) in Hs by lia.
  split; [|lia]. split; [lia|].
  assert (Z.log2 w < 50); [|lia].
  apply Z.log2_lt_pow2; lia.
Qed.

Lemma float_of_int_normal w d :
  1 <= d <= 52 -> 2 ^ (d - 1) <= w < 2 ^ d ->
  float_of_int w = inr (S754_finite false (Z.to_pos (w * 2 ^ (53 - d))) (d - 53)).
Proof.
  intros Hd Hw. unfold float_of_int.
  rewrite (binary_normalize_int w d Hd Hw). reflexivity.
Qed.

Lemma mantissa_bounds w d :
  1 <= d <= 52 -> 2 ^ (d - 1) <= w < 2 ^ d ->
  2 ^ 52 <= w * 2 ^ (53 - d) < 2 ^ 53.
Proof.
  intros Hd Hw.
  assert (E52 : 2 ^ 52 = 2 ^ (d - 1) * 2 ^ (53 - d)).
  { rewrite <- Z.pow_add_r by lia. f_equal. lia. }
  assert (E53 : 2 ^ 53 = 2 ^ d * 2 ^ (53 - d)).
  { rewrite <- Z.pow_add_r by lia. f_equal. lia. }
  rewrite E52, E53.
  assert (0 < 2 ^ (53 - d)) by (apply Z.pow_pos_nonneg; lia).
  nia.
Qed.

(** [int(width / target_ratio)] is [3 * width // 2]. *)
Lemma height_for_width_eq w :
  1 <= w < 2 ^ 50 -> height_for_width w = inr (3 * w / 2).
Proof.
  intros Hw. destruct (log2_digits w Hw) as (d & Hd & Hwd).
  unfold height_for_width. rewrite (float_of_int_normal w d) by lia.
  pose proof (mantissa_bounds w d ltac:(lia) Hwd) as HH.
  assert (EK : 2 ^ (53 - d) = 4 * 2 ^ (51 - d)).
  { change 4 with (2 ^ 2). rewrite <- Z.pow_add_r by lia. f_equal. lia. }
  assert (HK : 0 < 2 ^ (51 - d)) by (apply Z.pow_pos_nonneg; lia).
  set (K4 := 2 ^ (51 - d)) in *.
  rewrite f64_div_target_ratio; [|lia| |lia].
  2:{ rewrite EK. replace (w * (4 * K4)) with (w * K4 * 4) by ring. apply Z.mod_mul. lia. }
  assert (E2 : w * 2 ^ (53 - d) / 2 = w * K4 * 2).
  { rewrite EK. replace (w * (4 * K4)) with (w * K4 * 2 * 2) by ring. apply Z.div_mul. lia. }
  assert (E4 : w * 2 ^ (53 - d) / 4 = w * K4).
  { rewrite EK. replace (w * (4 * K4)) with (w * K4 * 4) by ring. apply Z.div_mul. lia. }
  rewrite E2, E4.
  destruct (Z.ltb_spec (3 * (w * K4 * 2)) (2 ^ 53)).
  - rewrite int_of_float_neg_exp by lia. f_equal. rewrite Z2Pos.id by nia.
    replace (- (d - 53)) with (53 - d) by lia. rewrite EK.
    replace (3 * (w * K4 * 2)) with (3 * w * (2 * K4)) by ring.
    replace (4 * K4) with (2 * (2 * K4)) by ring.
    apply Z.div_mul_cancel_r; lia.
  - rewrite int_of_float_neg_exp by lia. f_equal. rewrite Z2Pos.id by nia.
    replace (- (d - 53 + 1)) with (1 + (51 - d)) by lia.
    rewrite Z.pow_add_r by lia. fold K4. change (2 ^ 1) with 2.
    replace (3 * (w * K4)) with (3 * w * K4) by ring.
    apply Z.div_mul_cancel_r; lia.
Qed.

(** [int(height * target_ratio)] is [2 * height // 3]. *)
Lemma width_for_height_eq h :
  1 <= h < 2 ^ 50 -> width_for_height h = inr (2 * h / 3).
Proof.
  intros Hh. destruct (log2_digits h Hh) as (d & Hd & Hhd).
  unfold width_for_height. rewrite (float_of_int_normal h d) by lia.
  pose proof (mantissa_bounds h d ltac:(lia) Hhd) as HH.
  assert (HK : 8 <= 2 ^ (53 - d)).
  { change 8 with (2 ^ 3). apply Z.pow_le_mono_r; lia. }
  set (K := 2 ^ (53 - d)) in *.
  rewrite target_ratio_eq. unfold f64_mul, SFmul. cbn [xorb].
  rewrite Pos2Z.inj_mul, Z2Pos.id by lia.
  assert (exists n, (n = 53 /\ 2 ^ 105 <= h * K * 6004799503160661) \/
                    (n = 52 /\ h * K * 6004799503160661 < 2 ^ 105)) as [n Hn].
  { destruct (Z_lt_le_dec (h * K * 6004799503160661) (2 ^ 105)); eauto. }
  destruct (bra_round (h * K * 6004799503160661) (d - 53 + -53) n) as (M & e & -> & He & HM).
  { destruct Hn as [[-> _] | [-> _]]; lia. }
  { destruct Hn as [[-> ?] | [-> ?]]; cbn [Z.add Pos.add Pos.succ]; lia. }
  { destruct Hn as [[-> _] | [-> _]]; lia. }
  assert (Hn' : n = 52 \/ n = 53) by (destruct Hn as [[-> _] | [-> _]]; lia).
  rewrite int_of_float_neg_exp by lia. f_equal.
  rewrite <- (mul_ratio_floor h K n) by lia.
  rewrite <- HM.
  set (j := e - (d - 53 + -53 + n)) in *.
  assert (0 < 2 ^ j) by (apply Z.pow_pos_nonneg; lia).
  assert (0 < 2 ^ (- e)) by (apply Z.pow_pos_nonneg; lia).
  assert (2 ^ (53 - n) * K = 2 ^ (- e) * 2 ^ j) as ->.
  { unfold K. rewrite <- !Z.pow_add_r by lia. f_equal. lia. }
  symmetry. apply Z.div_mul_cancel_r; lia.
Qed.

(** ** Unfolding the monad *)

Ltac unfold_monad :=
  unfold mbind, mret, M_bind, M_ret, bind, ret, raise, lift, modify, finally in *.

Lemma bind_inr {A B} (m : M A) (k : A -> M B) w a w' :
  m w = (inr a, w') -> (m ≫= k) w = k a w'.
Proof. intros E. unfold_monad. rewrite E. reflexivity. Qed.

Lemma bind_inl {A B} (m : M A) (k : A -> M B) w e w' :
  m w = (inl e, w') -> (m ≫= k) w = (inl e, w').
Proof. intros E. unfold_monad. rewrite E. reflexivity. Qed.

(** ** What [generate_image] leaves alone *)

Lemma make_generator_world env device seed w :
  (make_generator env device seed w).2 = w.
Proof.
  unfold make_generator. destruct seed as [s|]; [|reflexivity].
  case_bool_decide; [reflexivity|].
  unfold_monad. destruct (manual_seed env device s); reflexivity.
Qed.

Lemma call_pipeline_frame pipeline prompt steps generator w :
  same_outside_model w (call_pipeline pipeline prompt steps generator w).2.
Proof.
  unfold call_pipeline, same_outside_model.
  destruct pipeline as [p|s]; [|done].
  destruct generator as [g|]; [done|].
  destruct (run p prompt steps (default_rng w)); done.
Qed.

Lemma synthesize_frame env pipeline device prompt seed w :
  same_outside_model w (synthesize env pipeline device prompt seed w).2.
Proof.
  unfold synthesize.
  pose proof (make_generator_world env device seed w) as Hg.
  destruct (make_generator env device seed w) as [[e|g] w1] eqn:E; simpl in Hg; subst w1.
  - rewrite (bind_inl _ _ _ _ _ E). done.
  - rewrite (bind_inr _ _ _ _ _ E). apply call_pipeline_frame.
Qed.

Lemma generate_image_frame env pipeline device prompt seed w :
  same_outside_model w (generate_image env pipeline device prompt seed w).2.
Proof.
  unfold generate_image.
  pose proof (synthesize_frame env pipeline device prompt seed w) as Hs.
  destruct (synthesize env pipeline device prompt seed w) as [[e|im] w1] eqn:E; simpl in Hs.
  - rewrite (bind_inl _ _ _ _ _ E). done.
  - rewrite (bind_inr _ _ _ _ _ E). unfold_monad.
    destruct (crop_box (img_width im) (img_height im)); done.
Qed.

(** ** The encode step *)

Lemma encode_jpeg_save_fails env im w e part :
  save_bmp env im = inl (e, part) ->
  encode_jpeg env im w =
  (inl e, set_tmp_seq S (set_fs (insert (bmp_path w) (default [] part)) w)).
Proof.
  intros E. unfold encode_jpeg, with_temp, image_save, NamedTemporaryFile.
  unfold_monad. cbn. rewrite E. fold (bmp_path w).
  destruct part as [part|]; cbn; [|reflexivity].
  unfold set_tmp_seq, set_fs. cbn. rewrite insert_insert_eq. reflexivity.
Qed.

Lemma encode_jpeg_saved env im w data :
  save_bmp env im = inr data ->
  encode_jpeg env im w =
  (subprocess_run env (cjpeg_argv (jpg_path w) (bmp_path w)) true ≫=
     λ _, read_file (jpg_path w)) (staged data w).
Proof.
  intros E. unfold encode_jpeg, with_temp, image_save, NamedTemporaryFile.
  unfold_monad. cbn. rewrite E. cbn.
  fold (bmp_path w). fold (jpg_path w). fold (staged data w).
  destruct (subprocess_run _ _ _ _) as [[e|rc] w3]; [reflexivity|].
  destruct (read_file _ _) as [r w4]. reflexivity.
Qed.

Lemma write_files_is_Some writes w k :
  is_Some (fs w !! k) -> is_Some (fs (write_files writes w) !! k).
Proof.
  unfold write_files. destruct w as [mm ep m ts dr pc sp]. cbn.
  revert m. induction writes as [|[k' v] writes IH]; intros m Hm; cbn; [done|].
  apply IH. destruct (decide (k' = k)) as [-> | Hne].
  - rewrite lookup_insert_eq. eauto.
  - rewrite lookup_insert_ne by done. done.
Qed.

Lemma staged_bmp data w : bmp_path w <> jpg_path w -> fs (staged data w) !! bmp_path w = Some data.
Proof.
  intros Hne. unfold staged. cbn.
  rewrite lookup_insert_ne by done. apply lookup_insert_eq.
Qed.

Lemma staged_is_Some data w k :
  k = bmp_path w \/ k = jpg_path w -> is_Some (fs (staged data w) !! k).
Proof.
  intros Hk. unfold staged. cbn.
  destruct (decide (jpg_path w = k)) as [-> | Hne].
  - rewrite lookup_insert_eq. eauto.
  - rewrite lookup_insert_ne by done. destruct Hk as [-> | ->]; [|done].
    rewrite lookup_insert_eq. eauto.
Qed.

(** Two names with different suffixes differ. *)
Lemma suffix_ne (a b : string) : a +:+ ".bmp" <> b +:+ ".jpg".
Proof.
  revert b. induction a as [|c a IH]; intros b E.
  - destruct b as [|? [|? [|? [|? [|? b]]]]]; cbv [String.append] in E; congruence.
  - destruct b as [|c' b].
    + destruct a as [|? [|? [|? [|? a]]]]; cbv [String.append] in E; congruence.
    + cbv [String.append] in E. fold String.append in E.
      injection E as _ E. exact (IH b E).
Qed.

Lemma string_app_assoc (a b c : string) : a +:+ b +:+ c = (a +:+ b) +:+ c.
Proof.
  induction a as [|x a IH]; [reflexivity|].
  cbv [String.append]. fold String.append. f_equal. exact IH.
Qed.

Lemma bmp_jpg_distinct w : bmp_path w <> jpg_path w.
Proof.
  unfold bmp_path, jpg_path, tmp_name.
  rewrite !string_app_assoc. apply suffix_ne.
Qed.

(** How starting the encoder can end. *)
Lemma subprocess_run_not_found env argv check w :
  which env (environ_path w) (hd EmptyString argv) = None ->
  subprocess_run env argv check w = (inl (FileNotFoundError (hd EmptyString argv)), w).
Proof. intros E. unfold subprocess_run. rewrite E. reflexivity. Qed.

Lemma subprocess_run_found env argv w prog rc writes :
  which env (environ_path w) (hd EmptyString argv) = Some prog ->
  prog argv (fun p => fs w !! p) = (rc, writes) ->
  subprocess_run env argv true w =
  (if bool_decide (rc = 0) then inr rc else inl (CalledProcessError rc argv),
   set_spawned (fun l => l ++ [argv]) (write_files writes w)).
Proof.
  intros E Hp. unfold subprocess_run. rewrite E, Hp. cbn.
  case_bool_decide; reflexivity.
Qed.

(** The outcome of the encode step, case by case. *)
Lemma encode_jpeg_not_found env im w data :
  save_bmp env im = inr data ->
  which env (environ_path w) "cjpeg" = None ->
  encode_jpeg env im w = (inl (FileNotFoundError "cjpeg"), staged data w).
Proof.
  intros Hs Hw. rewrite (encode_jpeg_saved _ _ _ _ Hs).
  apply bind_inl.
  apply (subprocess_run_not_found env (cjpeg_argv (jpg_path w) (bmp_path w)) true
           (staged data w) Hw).
Qed.

Lemma encode_jpeg_exit env im w data prog rc writes :
  save_bmp env im = inr data ->
  which env (environ_path w) "cjpeg" = Some prog ->
  prog (cjpeg_argv (jpg_path w) (bmp_path w)) (fun p => fs (staged data w) !! p)
    = (rc, writes) ->
  let w3 := set_spawned (fun l => l ++ [cjpeg_argv (jpg_path w) (bmp_path w)])
              (write_files writes (staged data w)) in
  encode_jpeg env im w =
  (if bool_decide (rc = 0)
   then match fs w3 !! jpg_path w with
        | Some bytes => inr bytes
        | None => inl (FileNotFoundError (jpg_path w))
        end
   else inl (CalledProcessError rc (cjpeg_argv (jpg_path w) (bmp_path w))), w3).
Proof.
  intros Hs Hw Hp w3. rewrite (encode_jpeg_saved _ _ _ _ Hs).
  pose proof (subprocess_run_found env (cjpeg_argv (jpg_path w) (bmp_path w))
                (staged data w) prog rc writes Hw Hp) as Hrun.
  fold w3 in Hrun. case_bool_decide.
  - rewrite (bind_inr _ _ _ _ _ Hrun). unfold read_file.
    destruct (fs w3 !! jpg_path w); reflexivity.
  - rewrite (bind_inl _ _ _ _ _ Hrun). reflexivity.
Qed.

Lemma encode_jpeg_frame env im w :
  let w' := (encode_jpeg env im w).2 in
  ml_models w' = ml_models w /\ environ_path w' = environ_path w /\
  pipeline_calls w' = pipeline_calls w /\ default_rng w' = default_rng w.
Proof.
  destruct (save_bmp env im) as [[e part]|data] eqn:Hs.
  - rewrite (encode_jpeg_save_fails _ _ _ _ _ Hs). done.
  - destruct (which env (environ_path w) "cjpeg") as [prog|] eqn:Hw.
    + destruct (prog (cjpeg_argv (jpg_path w) (bmp_path w))
                  (fun p => fs (staged data w) !! p)) as [rc writes] eqn:Hp.
      rewrite (encode_jpeg_exit _ _ _ _ _ _ _ Hs Hw Hp). done.
    + rewrite (encode_jpeg_not_found _ _ _ _ Hs Hw). done.
Qed.

(** Whatever the encoder does, the two files it was given are still there
    when the encode step returns. *)
Lemma encode_jpeg_leaves_files env im w data :
  save_bmp env im = inr data ->
  let w' := (encode_jpeg env im w).2 in
  is_Some (fs w' !! bmp_path w) /\ is_Some (fs w' !! jpg_path w).
Proof.
  intros Hs.
  destruct (which env (environ_path w) "cjpeg") as [prog|] eqn:Hw.
  - destruct (prog (cjpeg_argv (jpg_path w) (bmp_path w))
                (fun p => fs (staged data w) !! p)) as [rc writes] eqn:Hp.
    rewrite (encode_jpeg_exit _ _ _ _ _ _ _ Hs Hw Hp). cbn.
    split; apply (write_files_is_Some writes (staged data w)), staged_is_Some; auto.
  - rewrite (encode_jpeg_not_found _ _ _ _ Hs Hw). cbn.
    split; apply staged_is_Some; auto.
Qed.

(** ** The handler, once a pipeline is loaded *)

Lemma api_loaded env req w p :
  ml_models w !! "sana_sprint" = Some (VPipeline p) ->
  api_generate_image env req w =
  match generate_body env (VPipeline p) (ml_models w !! "device") req w with
  | (inr resp, w') => (inr resp, w')
  | (inl e, w') =>
      (inl (mkHTTPException 500 ("Image generation failed: " +:+ exc_str e)), w')
  end.
Proof. intros E. unfold api_generate_image. rewrite E. reflexivity. Qed.

Lemma generate_body_encode env pv device req w im w1 :
  generate_image env pv device (prompt req) (seed req) w = (inr im, w1) ->
  generate_body env pv device req w =
  match encode_jpeg env im w1 with
  | (inr data, w') => (inr (mkResponse data "image/jpeg"), w')
  | (inl e, w') => (inl e, w')
  end.
Proof.
  intros E. unfold generate_body. rewrite (bind_inr _ _ _ _ _ E).
  unfold_monad. destruct (encode_jpeg env im w1) as [[e|d] w']; reflexivity.
Qed.

Lemma api_world_after_image env req w p im w1 :
  ml_models w !! "sana_sprint" = Some (VPipeline p) ->
  generate_image env (VPipeline p) (ml_models w !! "device") (prompt req) (seed req) w
    = (inr im, w1) ->
  (api_generate_image env req w).2 = (encode_jpeg env im w1).2.
Proof.
  intros Hl Hg. rewrite (api_loaded _ _ _ _ Hl), (generate_body_encode _ _ _ _ _ _ _ Hg).
  destruct (encode_jpeg env im w1) as [[e|d] w']; reflexivity.
Qed.

Lemma same_outside_paths w w1 :
  same_outside_model w w1 -> bmp_path w1 = bmp_path w /\ jpg_path w1 = jpg_path w.
Proof. intros (_ & _ & _ & Ht & _). unfold bmp_path, jpg_path. rewrite Ht. done. Qed.

Lemma same_outside_staged data w w1 :
  same_outside_model w w1 -> fs (staged data w1) = fs (staged data w).
Proof.
  intros Hs. destruct (same_outside_paths w w1 Hs) as [Hb Hj].
  destruct Hs as (_ & _ & Hf & _ & _). unfold staged. cbn. rewrite Hb, Hj, Hf. done.
Qed.

(** ** The trace of model invocations *)

Lemma call_pipeline_calls pv prompt steps g w :
  pipeline_calls (call_pipeline pv prompt steps g w).2 =
  pipeline_calls w ++
    match pv with VPipeline _ => [mkCall prompt steps g] | VStr _ => [] end.
Proof.
  unfold call_pipeline. destruct pv as [p|s]; cbn; [|by rewrite app_nil_r].
  destruct g as [g|]; [done|].
  destruct (run p prompt steps (default_rng w)); done.
Qed.

Lemma synthesize_calls env pv device prompt seed w :
  pipeline_calls (synthesize env pv device prompt seed w).2 =
  pipeline_calls w ++
    match pv with
    | VPipeline _ =>
        match (make_generator env device seed w).1 with
        | inr g => [mkCall prompt num_inference_steps g]
        | inl _ => []
        end
    | VStr _ => []
    end.
Proof.
  unfold synthesize.
  pose proof (make_generator_world env device seed w) as Hg.
  destruct (make_generator env device seed w) as [[e|g] w1] eqn:E; simpl in Hg; subst w1.
  - rewrite (bind_inl _ _ _ _ _ E). cbn. destruct pv; by rewrite app_nil_r.
  - rewrite (bind_inr _ _ _ _ _ E). apply call_pipeline_calls.
Qed.

Lemma generate_image_calls env pv device prompt seed w :
  pipeline_calls (generate_image env pv device prompt seed w).2 =
  pipeline_calls (synthesize env pv device prompt seed w).2.
Proof.
  unfold generate_image.
  destruct (synthesize env pv device prompt seed w) as [[e|im] w1] eqn:E.
  - rewrite (bind_inl _ _ _ _ _ E). done.
  - rewrite (bind_inr _ _ _ _ _ E). unfold_monad.
    destruct (crop_box (img_width im) (img_height im)); done.
Qed.

Lemma generate_body_calls env pv device req w :
  pipeline_calls (generate_body env pv device req w).2 =
  pipeline_calls (synthesize env pv device (prompt req) (seed req) w).2.
Proof.
  rewrite <- generate_image_calls.
  destruct (generate_image env pv device (prompt req) (seed req) w) as [[e|im] w1] eqn:E.
  - unfold generate_body. rewrite (bind_inl _ _ _ _ _ E). done.
  - rewrite (generate_body_encode _ _ _ _ _ _ _ E).
    pose proof (encode_jpeg_frame env im w1) as (_ & _ & Hc & _).
    destruct (encode_jpeg env im w1) as [[e|d] w']; exact Hc.
Qed.

Lemma api_pipeline_calls env req w :
  pipeline_calls (api_generate_image env req w).2 =
  pipeline_calls w ++ expected_calls env req w.
Proof.
  unfold api_generate_image, expected_calls.
  destruct (ml_models w !! "sana_sprint") as [[p|s]|] eqn:El; cbn [truthy].
  - pose proof (generate_body_calls env (VPipeline p) (ml_models w !! "device") req w) as Hc.
    rewrite synthesize_calls in Hc.
    destruct (generate_body _ _ _ _ _) as [[e|r] w']; exact Hc.
  - destruct (negb (bool_decide (s = EmptyString))); [|by rewrite app_nil_r].
    pose proof (generate_body_calls env (VStr s) (ml_models w !! "device") req w) as Hc.
    rewrite synthesize_calls in Hc.
    destruct (generate_body _ _ _ _ _) as [[e|r] w']; exact Hc.
  - by rewrite app_nil_r.
Qed.


(** ** What the handlers leave alone *)

Lemma api_ml_models env req w :
  ml_models (api_generate_image env req w).2 = ml_models w.
Proof.
  unfold api_generate_image.
  assert (Hb : forall pv, ml_models (generate_body env pv (ml_models w !! "device") req w).2
                          = ml_models w).
  { intros pv.
    destruct (generate_image env pv (ml_models w !! "device") (prompt req) (seed req) w)
      as [[e|im] w1] eqn:E;
      pose proof (generate_image_frame env pv (ml_models w !! "device")
                    (prompt req) (seed req) w) as Hf;
      rewrite E in Hf; destruct Hf as (Hm & _).
    - unfold generate_body. rewrite (bind_inl _ _ _ _ _ E). exact Hm.
    - rewrite (generate_body_encode _ _ _ _ _ _ _ E).
      pose proof (encode_jpeg_frame env im w1) as (Hm' & _).
      destruct (encode_jpeg env im w1) as [[e|d] w']; cbn in *; congruence. }
  destruct (ml_models w !! "sana_sprint") as [pv|]; [|done].
  destruct (truthy pv); [|done].
  specialize (Hb pv). destruct (generate_body _ _ _ _ _) as [[e|r] w']; exact Hb.
Qed.

Lemma handle_ml_models env req w : ml_models (handle env req w).2 = ml_models w.
Proof.
  destruct req as [|body]; [done|]. cbn.
  pose proof (api_ml_models env body w).
  destruct (api_generate_image env body w); done.
Qed.

Lemma serve_ml_models env reqs w : ml_models (serve env reqs w).2 = ml_models w.
Proof.
  revert w. induction reqs as [|req reqs IH]; intros w; [done|]. cbn.
  pose proof (handle_ml_models env req w) as Hh.
  destruct (handle env req w) as [reply w1].
  specialize (IH w1). destruct (serve env reqs w1) as [replies w2].
  cbn in *. congruence.
Qed.

Lemma serve_health env reqs w :
  Forall (fun h => model_loaded h = model_loaded (health_check w))
         (health_replies (serve env reqs w).1).
Proof.
  revert w. induction reqs as [|req reqs IH]; intros w; [constructor|].
  cbn [serve].
  pose proof (handle_ml_models env req w) as Hh.
  destruct (handle env req w) as [reply w1] eqn:E.
  specialize (IH w1).
  assert (Hw : model_loaded (health_check w1) = model_loaded (health_check w)).
  { unfold health_check. cbn in Hh |- *. rewrite Hh. done. }
  rewrite Hw in IH.
  destruct (serve env reqs w1) as [replies w2]. cbn [fst] in *.
  destruct req as [|body]; cbn [handle] in E.
  - injection E as <- <-. unfold health_replies. cbn [omap list_omap].
    constructor; [done|exact IH].
  - destruct (api_generate_image env body w). injection E as <- <-. exact IH.
Qed.

(** ** The crop box (C4) *)

(** On bitmaps that can exist, the floating-point lines 74-80 compute the
    integer quotients [3 * width // 2] and [2 * height // 3]. *)
Lemma crop_box_integer width height :
  1 <= width < 2 ^ 50 -> 1 <= height < 2 ^ 50 ->
  crop_box width height =
  inr (let '(tw, th) := if bool_decide (3 * width / 2 > height)
                        then (2 * height / 3, height)
                        else (width, 3 * width / 2) in
       mkBox ((width - tw) / 2) ((height - th) / 2)
             ((width - tw) / 2 + tw) ((height - th) / 2 + th)).
Proof.
  intros Hw Hh. unfold crop_box.
  rewrite (height_for_width_eq width Hw).
  case_bool_decide; [|reflexivity].
  rewrite (width_for_height_eq height Hh). reflexivity.
Qed.

(** Beyond the range of binary64 there is no box at all. *)
Lemma crop_box_overflow : exists e, crop_box (2 ^ 1024) 1 = inl e.
Proof. eexists. vm_compute. reflexivity. Qed.

(** C4. For every source of at least 1 x 1 pixels (and below 2^50 in each
    dimension, far above what a bitmap in memory can have), the crop box of
    [generate_image] is computed, lies inside the source
    ([0 <= left <= right <= width], [0 <= top <= bottom <= height]), has a
    width within one pixel of two thirds of its height, has its centre
    within one pixel of the centre of the source in both directions, and is
    no larger than the source in either dimension. *)
Theorem crop_box_centred width height :
  1 <= width < 2 ^ 50 -> 1 <= height < 2 ^ 50 ->
  exists b, crop_box width height = inr b /\
    (0 <= box_left b <= box_right b /\ box_right b <= width) /\
    (0 <= box_top b <= box_bottom b /\ box_bottom b <= height) /\
    Z.abs (3 * (box_right b - box_left b) - 2 * (box_bottom b - box_top b)) < 3 /\
    Z.abs (box_left b + box_right b - width) <= 2 /\
    Z.abs (box_top b + box_bottom b - height) <= 2 /\
    box_right b - box_left b <= width /\
    box_bottom b - box_top b <= height.
Proof.
  intros Hw Hh. rewrite (crop_box_integer width height Hw Hh).
  eexists. split; [reflexivity|].
  case_bool_decide; cbn [box_left box_top box_right box_bottom];
    Z.to_euclidean_division_equations; lia.
Qed.

Lemma crop_box_centred_witness :
  1 <= 1024 < 2 ^ 50 /\ 1 <= 1024 < 2 ^ 50 /\
  exists b, crop_box 1024 1024 = inr b /\
    (0 <= box_left b <= box_right b /\ box_right b <= 1024) /\
    (0 <= box_top b <= box_bottom b /\ box_bottom b <= 1024) /\
    Z.abs (3 * (box_right b - box_left b) - 2 * (box_bottom b - box_top b)) < 3 /\
    Z.abs (box_left b + box_right b - 1024) <= 2 /\
    Z.abs (box_top b + box_bottom b - 1024) <= 2 /\
    box_right b - box_left b <= 1024 /\
    box_bottom b - box_top b <= 1024.
Proof.
  split; [lia|]. split; [lia|]. apply (crop_box_centred 1024 1024); lia.
Defined.

(** ** The model is missing (C6) *)

(** C6. A [POST /generate] that arrives while no model is loaded is
    answered with status 500 and the detail "Image generation model not
    available", and the world is left exactly as it was: the model is not
    invoked, nothing is cropped or encoded, no temporary file is created. *)
Theorem generate_without_model env req w :
  ml_models w !! "sana_sprint" = None ->
  api_generate_image env req w =
  (inl (mkHTTPException 500 "Image generation model not available"), w).
Proof. intros E. unfold api_generate_image. rewrite E. reflexivity. Qed.

Lemma generate_without_model_witness :
  ml_models Demo.booted !! "sana_sprint" = None /\
  api_generate_image Demo.env Demo.cat Demo.booted =
  (inl (mkHTTPException 500 "Image generation model not available"), Demo.booted).
Proof.
  split; [reflexivity|].
  apply (generate_without_model Demo.env Demo.cat Demo.booted). reflexivity.
Defined.

(** ** The health flag follows the lifecycle (C7) *)

Lemma module_init_not_loaded w : model_loaded (health_check (module_init w)) = false.
Proof. reflexivity. Qed.

Lemma lifetime_load_loaded env w w1 :
  lifetime_load env w = (inr tt, w1) -> is_Some (ml_models w1 !! "sana_sprint").
Proof.
  unfold lifetime_load. unfold_monad.
  destruct (from_pretrained env _) as [e|p]; [discriminate|].
  destruct (pipeline_to env p _) as [e|]; [discriminate|].
  cbn. intros [= <-]. cbn.
  rewrite lookup_insert_ne by done. rewrite lookup_insert_eq. eauto.
Qed.

Lemma lifetime_enter_loaded env w w1 :
  lifetime_enter env w = (inr tt, w1) -> model_loaded (health_check w1) = true.
Proof.
  unfold lifetime_enter.
  destruct (lifetime_load env w) as [[e|[]] w'] eqn:E; [discriminate|].
  intros [= <-]. apply bool_decide_eq_true. exact (lifetime_load_loaded env w w' E).
Qed.

Lemma lifetime_cleanup_not_loaded w :
  model_loaded (health_check (lifetime_cleanup w)) = false.
Proof.
  apply bool_decide_eq_false. unfold lifetime_cleanup.
  case_bool_decide as Hl; [|exact Hl].
  cbn. rewrite lookup_delete_eq. apply is_Some_None.
Qed.

Lemma lifetime_exit_not_loaded thrown w :
  model_loaded (health_check (lifetime_exit thrown w).2) = false.
Proof. destruct thrown; apply lifetime_cleanup_not_loaded. Qed.

(** A failed start-up leaves the flag down as well. *)
Lemma lifetime_enter_failed env w e w1 :
  lifetime_enter env w = (inl e, w1) -> model_loaded (health_check w1) = false.
Proof.
  unfold lifetime_enter.
  destruct (lifetime_load env w) as [[e'|[]] w'] eqn:E; [|discriminate].
  intros [= _ <-]. apply lifetime_cleanup_not_loaded.
Qed.

(** C7. [/health] reports [model_loaded = false] before the start-up has
    loaded the model, [true] in every reply given between a successful
    start-up and the shutdown, and [false] after the teardown; requests
    never change the dictionary that the flag is read from. *)
Theorem health_tracks_lifecycle env w0 w1 reqs thrown :
  lifetime_enter env (module_init w0) = (inr tt, w1) ->
  model_loaded (health_check (module_init w0)) = false /\
  model_loaded (health_check w1) = true /\
  Forall (fun h => model_loaded h = true) (health_replies (serve env reqs w1).1) /\
  (forall rs w, ml_models (serve env rs w).2 = ml_models w) /\
  model_loaded (health_check (serve env reqs w1).2) = true /\
  model_loaded (health_check (lifetime_exit thrown (serve env reqs w1).2).2) = false.
Proof.
  intros Hstart.
  pose proof (lifetime_enter_loaded env _ _ Hstart) as Hup.
  split; [apply module_init_not_loaded|]. split; [exact Hup|].
  split; [|split; [|split]].
  - rewrite <- Hup. apply serve_health.
  - intros rs w. apply serve_ml_models.
  - unfold health_check in *. cbn in *. rewrite serve_ml_models. exact Hup.
  - apply lifetime_exit_not_loaded.
Qed.

Lemma health_tracks_lifecycle_witness :
  lifetime_enter Demo.env (module_init Demo.fresh) = (inr tt, Demo.ready) /\
  model_loaded (health_check (module_init Demo.fresh)) = false /\
  model_loaded (health_check Demo.ready) = true /\
  Forall (fun h => model_loaded h = true)
    (health_replies (serve Demo.env [GetHealth; PostGenerate Demo.cat; GetHealth] Demo.ready).1) /\
  (forall rs w, ml_models (serve Demo.env rs w).2 = ml_models w) /\
  model_loaded (health_check
    (serve Demo.env [GetHealth; PostGenerate Demo.cat; GetHealth] Demo.ready).2) = true /\
  model_loaded (health_check
    (lifetime_exit None
       (serve Demo.env [GetHealth; PostGenerate Demo.cat; GetHealth] Demo.ready).2).2) = false.
Proof.
  split; [vm_compute; reflexivity|].
  apply (health_tracks_lifecycle Demo.env Demo.fresh Demo.ready
           [GetHealth; PostGenerate Demo.cat; GetHealth] None).
  vm_compute. reflexivity.
Defined.

(** ** The number of inference steps (C9) *)



(** ** Seed 0 (C10, C2) *)

(** C10. For a request whose seed is exactly 0 no generator is built, and
    the whole request is handled as the same request without a seed: the
    reply and the resulting world are equal. *)
Theorem seed_zero_is_seed_absent env device text w :
  make_generator env device (Some 0) w = (inr None, w) /\
  api_generate_image env (mkRequest text (Some 0)) w =
  api_generate_image env (mkRequest text None) w.
Proof. split; reflexivity. Qed.

(** With a seed other than 0 the raw image does not depend on the state of
    the process. *)
Lemma synthesize_seeded env pv device text s w1 w2 :
  s <> 0 ->
  (synthesize env pv device text (Some s) w1).1 =
  (synthesize env pv device text (Some s) w2).1.
Proof.
  intros Hs. unfold synthesize, make_generator.
  rewrite bool_decide_eq_false_2 by exact Hs.
  unfold_monad. destruct (manual_seed env device s) as [e|g]; [reflexivity|].
  unfold call_pipeline. destruct pv; reflexivity.
Qed.

Lemma seeded_reproducible env pv device text s w :
  s <> 0 -> reproducible env pv device text (Some s) w.
Proof.
  intros Hs. unfold reproducible.
  pose proof (synthesize_seeded env pv device text s w
                (synthesize env pv device text (Some s) w).2 Hs) as H.
  destruct (synthesize env pv device text (Some s) w) as [r1 w1].
  cbn [fst snd] in H.
  destruct (synthesize env pv device text (Some s) w1) as [r2 w2].
  exact H.
Qed.

(** C2, at seed 0. Two runs that follow one another with the prompt
    "a cat" and seed 0 are both driven by the default generator (no seeded
    generator is built) and return images that differ at pixel (0, 0). *)
Theorem seed_zero_runs_differ :
  let run1 := synthesize Demo.env (VPipeline Demo.pipeline) (Some (VStr "cpu"))
                "a cat" (Some 0) Demo.ready in
  let run2 := synthesize Demo.env (VPipeline Demo.pipeline) (Some (VStr "cpu"))
                "a cat" (Some 0) run1.2 in
  (make_generator Demo.env (Some (VStr "cpu")) (Some 0) Demo.ready).1 = inr None /\
  exists im1 im2, run1.1 = inr im1 /\ run2.1 = inr im2 /\
    getpixel im1 0 0 = 12 /\ getpixel im2 0 0 = 13.
Proof.
  cbv zeta. split; [reflexivity|].
  eexists _, _. split; [vm_compute; reflexivity|].
  split; [vm_compute; reflexivity|]. split; reflexivity.
Qed.

Lemma seed_zero_not_reproducible :
  ~ reproducible Demo.env (VPipeline Demo.pipeline) (Some (VStr "cpu"))
      "a cat" (Some 0) Demo.ready.
Proof.
  set (run1 := synthesize Demo.env (VPipeline Demo.pipeline) (Some (VStr "cpu"))
                 "a cat" (Some 0) Demo.ready).
  set (run2 := synthesize Demo.env (VPipeline Demo.pipeline) (Some (VStr "cpu"))
                 "a cat" (Some 0) run1.2).
  pose (px := fun r : Exception + Image =>
                match r with inr im => getpixel im 0 0 | inl _ => 0 end).
  assert (Hne : px run1.1 <> px run2.1) by (vm_compute; discriminate).
  unfold reproducible. fold run1. subst run2.
  destruct run1 as [r1 w1]. cbn [fst snd] in Hne.
  destruct (synthesize _ _ _ _ _ w1) as [r2 w2]. cbn [fst snd] in Hne.
  intros ->. exact (Hne eq_refl).
Qed.

(** ** The encoder call (C8, C1, C5) *)

Lemma api_after_image env req w p im w1 :
  ml_models w !! "sana_sprint" = Some (VPipeline p) ->
  generate_image env (VPipeline p) (ml_models w !! "device") (prompt req) (seed req) w
    = (inr im, w1) ->
  api_generate_image env req w =
  match encode_jpeg env im w1 with
  | (inr data, w') => (inr (mkResponse data "image/jpeg"), w')
  | (inl e, w') =>
      (inl (mkHTTPException 500 ("Image generation failed: " +:+ exc_str e)), w')
  end.
Proof.
  intros Hl Hg. rewrite (api_loaded _ _ _ _ Hl), (generate_body_encode _ _ _ _ _ _ _ Hg).
  destruct (encode_jpeg env im w1) as [[e|d] w']; reflexivity.
Qed.

Lemma generate_image_ok_generator env pv device text sd w im w1 :
  generate_image env pv device text sd w = (inr im, w1) ->
  exists g, (make_generator env device sd w).1 = inr g.
Proof.
  unfold generate_image, synthesize. unfold_monad.
  destruct (make_generator env device sd w) as [[e|g] w0]; [discriminate|].
  intros _. exists g. reflexivity.
Qed.

(** C8. Whenever the handler reaches the encoder, it starts exactly one
    process, with the argument vector [cjpeg -quality 85 -progressive
    -outfile <tmp.jpg> <tmp.bmp>]; at that moment the input path holds the
    BMP serialisation of the cropped image. Exit status 0 makes the reply
    the bytes found at the output path, with media type image/jpeg; any
    other status makes it a 500 failure carrying the [CalledProcessError]. *)
Theorem encoder_invocation env req w p im w1 data prog rc writes :
  ml_models w !! "sana_sprint" = Some (VPipeline p) ->
  generate_image env (VPipeline p) (ml_models w !! "device") (prompt req) (seed req) w
    = (inr im, w1) ->
  save_bmp env im = inr data ->
  which env (environ_path w) "cjpeg" = Some prog ->
  let argv := ["cjpeg"; "-quality"; "85"; "-progressive"; "-outfile";
               jpg_path w; bmp_path w] in
  prog argv (fun path => fs (staged data w) !! path) = (rc, writes) ->
  let out := api_generate_image env req w in
  fs (staged data w) !! bmp_path w = Some data /\
  spawned out.2 = spawned w ++ [argv] /\
  (rc = 0 -> exists bytes,
     out.1 = inr (mkResponse bytes "image/jpeg") /\
     fs out.2 !! jpg_path w = Some bytes) /\
  (rc <> 0 ->
     out.1 = inl (mkHTTPException 500
                    ("Image generation failed: " +:+ exc_str (CalledProcessError rc argv)))).
Proof.
  intros Hl Hg Hs Hw argv Hp out.
  pose proof (generate_image_frame env (VPipeline p) (ml_models w !! "device")
                (prompt req) (seed req) w) as Hf.
  rewrite Hg in Hf. cbn [snd] in Hf.
  destruct (same_outside_paths _ _ Hf) as [Hb Hj].
  pose proof (same_outside_staged data _ _ Hf) as Hst.
  destruct Hf as (_ & Hpath & _ & _ & Hsp).
  split; [apply staged_bmp, bmp_jpg_distinct|].
  assert (Hw1 : which env (environ_path w1) "cjpeg" = Some prog) by (rewrite Hpath; exact Hw).
  assert (Hp1 : prog (cjpeg_argv (jpg_path w1) (bmp_path w1))
                  (fun path => fs (staged data w1) !! path) = (rc, writes)).
  { rewrite Hb, Hj, Hst. exact Hp. }
  pose proof (encode_jpeg_exit env im w1 data prog rc writes Hs Hw1 Hp1) as He.
  cbv zeta in He. rewrite Hb, Hj in He.
  assert (Hjpg : is_Some (fs (write_files writes (staged data w1)) !! jpg_path w)).
  { apply write_files_is_Some. rewrite <- Hj. apply staged_is_Some. auto. }
  subst out. rewrite (api_after_image _ _ _ _ _ _ Hl Hg), He. clear He.
  cbn [set_spawned fs spawned] in *. fold argv.
  case_bool_decide as Hrc.
  - destruct Hjpg as [bytes Hbytes]. rewrite Hbytes. cbn. rewrite Hsp.
    split; [reflexivity|]. split; [|done]. intros _. exists bytes. done.
  - cbn. rewrite Hsp. split; [reflexivity|]. split; [done|]. intros _. reflexivity.
Qed.

Lemma encoder_invocation_witness :
  ml_models Demo.ready !! "sana_sprint" = Some (VPipeline Demo.pipeline) /\
  generate_image Demo.env (VPipeline Demo.pipeline) (ml_models Demo.ready !! "device")
    (prompt Demo.cat) (seed Demo.cat) Demo.ready = (inr Demo.cat_image, Demo.after_cat) /\
  save_bmp Demo.env Demo.cat_image = inr Demo.bmp_bytes /\
  which Demo.env (environ_path Demo.ready) "cjpeg" = Some Demo.cjpeg_ok /\
  Demo.cjpeg_ok
    ["cjpeg"; "-quality"; "85"; "-progressive"; "-outfile";
     jpg_path Demo.ready; bmp_path Demo.ready]
    (fun path => fs (staged Demo.bmp_bytes Demo.ready) !! path)
    = (0, [("/tmp/tmp1.jpg", Demo.jpeg_bytes)]) /\
  fs (staged Demo.bmp_bytes Demo.ready) !! bmp_path Demo.ready = Some Demo.bmp_bytes /\
  spawned (api_generate_image Demo.env Demo.cat Demo.ready).2 =
    spawned Demo.ready ++
      [["cjpeg"; "-quality"; "85"; "-progressive"; "-outfile";
        jpg_path Demo.ready; bmp_path Demo.ready]] /\
  (0 = 0 -> exists bytes,
     (api_generate_image Demo.env Demo.cat Demo.ready).1
       = inr (mkResponse bytes "image/jpeg") /\
     fs (api_generate_image Demo.env Demo.cat Demo.ready).2 !! jpg_path Demo.ready
       = Some bytes) /\
  (0 <> 0 ->
     (api_generate_image Demo.env Demo.cat Demo.ready).1 =
     inl (mkHTTPException 500
            ("Image generation failed: " +:+
             exc_str (CalledProcessError 0
               ["cjpeg"; "-quality"; "85"; "-progressive"; "-outfile";
                jpg_path Demo.ready; bmp_path Demo.ready])))).
Proof.
  split; [vm_compute; reflexivity|]. split; [vm_compute; reflexivity|].
  split; [vm_compute; reflexivity|]. split; [vm_compute; reflexivity|].
  split; [vm_compute; reflexivity|].
  apply (encoder_invocation Demo.env Demo.cat Demo.ready Demo.pipeline Demo.cat_image
           Demo.after_cat Demo.bmp_bytes Demo.cjpeg_ok 0 [("/tmp/tmp1.jpg", Demo.jpeg_bytes)]);
    vm_compute; reflexivity.
Defined.

(** Once the bitmap has been saved, both temporary files outlive the
    request. *)
Lemma temp_files_left_behind_aux env req w p im w1 data :
  ml_models w !! "sana_sprint" = Some (VPipeline p) ->
  generate_image env (VPipeline p) (ml_models w !! "device") (prompt req) (seed req) w
    = (inr im, w1) ->
  save_bmp env im = inr data ->
  is_Some (fs (api_generate_image env req w).2 !! bmp_path w) /\
  is_Some (fs (api_generate_image env req w).2 !! jpg_path w).
Proof.
  intros Hl Hg Hs.
  pose proof (generate_image_frame env (VPipeline p) (ml_models w !! "device")
                (prompt req) (seed req) w) as Hf.
  rewrite Hg in Hf. cbn [snd] in Hf.
  destruct (same_outside_paths _ _ Hf) as [Hb Hj].
  pose proof (encode_jpeg_leaves_files env im w1 data Hs) as [Hlb Hlj].
  cbv zeta in Hlb, Hlj. rewrite Hb in Hlb. rewrite Hj in Hlj.
  rewrite (api_world_after_image _ _ _ _ _ _ Hl Hg). done.
Qed.

(** C1, as stated, fails: after a successful request, and after one whose
    encoder exits with status 1, both temporary files are still on disk. *)
Lemma temp_files_not_removed :
  ~ temp_files_removed Demo.env Demo.cat Demo.ready /\
  ~ temp_files_removed Demo.env_exit1 Demo.cat Demo.ready.
Proof.
  assert (E1 : fs (api_generate_image Demo.env Demo.cat Demo.ready).2
                 !! bmp_path Demo.ready = Some Demo.bmp_bytes)
    by (vm_compute; reflexivity).
  assert (E2 : fs (api_generate_image Demo.env_exit1 Demo.cat Demo.ready).2
                 !! bmp_path Demo.ready = Some Demo.bmp_bytes)
    by (vm_compute; reflexivity).
  unfold temp_files_removed.
  split; intros [H _]; cbv zeta in H; congruence.
Qed.

(** C1, amended. The two temporary files are created with [delete=False]
    and nothing unlinks them: once the bitmap has been saved, both files are
    still on disk when the request completes, whether the encoder succeeded,
    exited with a non-zero status or could not be started; after a success
    the output file still holds the bytes that were returned. *)
Theorem temp_files_left_behind env req w p im w1 data :
  ml_models w !! "sana_sprint" = Some (VPipeline p) ->
  generate_image env (VPipeline p) (ml_models w !! "device") (prompt req) (seed req) w
    = (inr im, w1) ->
  save_bmp env im = inr data ->
  let out := api_generate_image env req w in
  is_Some (fs out.2 !! bmp_path w) /\
  is_Some (fs out.2 !! jpg_path w) /\
  (forall resp, out.1 = inr resp -> fs out.2 !! jpg_path w = Some (content resp)).
Proof.
  intros Hl Hg Hs out.
  pose proof (generate_image_frame env (VPipeline p) (ml_models w !! "device")
                (prompt req) (seed req) w) as Hf.
  rewrite Hg in Hf. cbn [snd] in Hf.
  destruct (same_outside_paths _ _ Hf) as [Hb Hj].
  destruct (temp_files_left_behind_aux env req w p im w1 data Hl Hg Hs) as (Hlb & Hlj).
  subst out. split; [exact Hlb|]. split; [exact Hlj|].
  intros resp. rewrite (api_after_image _ _ _ _ _ _ Hl Hg).
  destruct (which env (environ_path w1) "cjpeg") as [prog|] eqn:Hw.
  - destruct (prog (cjpeg_argv (jpg_path w1) (bmp_path w1))
                (fun path => fs (staged data w1) !! path)) as [rc writes] eqn:Hp.
    rewrite (encode_jpeg_exit env im w1 data prog rc writes Hs Hw Hp).
    cbv zeta. rewrite Hj.
    set (w3 := set_spawned _ (write_files writes (staged data w1))).
    case_bool_decide; [|discriminate].
    destruct (fs w3 !! jpg_path w) as [bytes|] eqn:Hbytes; [|discriminate].
    cbn [fst snd]. intros [= <-]. exact Hbytes.
  - rewrite (encode_jpeg_not_found _ _ _ _ Hs Hw). discriminate.
Qed.

Lemma temp_files_left_behind_witness :
  ml_models Demo.ready !! "sana_sprint" = Some (VPipeline Demo.pipeline) /\
  generate_image Demo.env_exit1 (VPipeline Demo.pipeline) (ml_models Demo.ready !! "device")
    (prompt Demo.cat) (seed Demo.cat) Demo.ready = (inr Demo.cat_image, Demo.after_cat) /\
  save_bmp Demo.env_exit1 Demo.cat_image = inr Demo.bmp_bytes /\
  is_Some (fs (api_generate_image Demo.env_exit1 Demo.cat Demo.ready).2
             !! bmp_path Demo.ready) /\
  is_Some (fs (api_generate_image Demo.env_exit1 Demo.cat Demo.ready).2
             !! jpg_path Demo.ready) /\
  (forall resp, (api_generate_image Demo.env_exit1 Demo.cat Demo.ready).1 = inr resp ->
     fs (api_generate_image Demo.env_exit1 Demo.cat Demo.ready).2 !! jpg_path Demo.ready
       = Some (content resp)).
Proof.
  split; [vm_compute; reflexivity|]. split; [vm_compute; reflexivity|].
  split; [reflexivity|].
  apply (temp_files_left_behind Demo.env_exit1 Demo.cat Demo.ready Demo.pipeline
           Demo.cat_image Demo.after_cat Demo.bmp_bytes); vm_compute; reflexivity.
Defined.

(** C5, as stated, fails: with no [cjpeg] on the path the start-up
    succeeds, and the request that reaches the encoder is given a reply
    that does not tell the condition apart: a deployment whose encoder is
    on the path, and whose model fails for want of another file of that
    name, gives the very same reply. *)
Lemma absent_encoder_not_distinct :
  ~ absent_encoder_is_distinct Demo.env_no_encoder Demo.cat Demo.booted.
Proof.
  unfold absent_encoder_is_distinct. intros H.
  assert (Hw : which Demo.env_no_encoder (environ_path Demo.booted) "cjpeg" = None)
    by (vm_compute; reflexivity).
  assert (Hup : lifetime_enter Demo.env_no_encoder Demo.booted = (inr tt, Demo.ready))
    by (vm_compute; reflexivity).
  assert (Hreach : reaches_encoder Demo.env_no_encoder Demo.cat Demo.ready).
  { exists Demo.pipeline, Demo.cat_image, Demo.after_cat, Demo.bmp_bytes.
    split; [vm_compute; reflexivity|]. split; [vm_compute; reflexivity|]. reflexivity. }
  assert (Hthere : is_Some (which Demo.env (environ_path Faults.ready_enoent) "cjpeg")).
  { exists Demo.cjpeg_ok. vm_compute. reflexivity. }
  assert (Hsame : (api_generate_image Demo.env Demo.cat Faults.ready_enoent).1 =
                  (api_generate_image Demo.env_no_encoder Demo.cat Demo.ready).1)
    by (vm_compute; reflexivity).
  specialize (H Hw). rewrite Hup in H.
  exact (H Hreach Demo.env Demo.cat Faults.ready_enoent Hthere Hsame).
Qed.

Lemma lifetime_enter_ignores_executables env bins w :
  lifetime_enter (with_executables bins env) w = lifetime_enter env w.
Proof. reflexivity. Qed.

(** C5, amended. The start-up never looks the encoder up, so a missing
    [cjpeg] is not detected there. A request that reaches the encoder call
    (a pipeline is stored, the image has been generated, the bitmap saved)
    fails there, after the model has been invoked once and both temporary
    files have been created, and is answered with status 500 and the detail
    "Image generation failed: [Errno 2] No such file or directory: 'cjpeg'". *)
Theorem missing_encoder_fails_mid_request env req w p im w1 data :
  ml_models w !! "sana_sprint" = Some (VPipeline p) ->
  generate_image env (VPipeline p) (ml_models w !! "device") (prompt req) (seed req) w
    = (inr im, w1) ->
  save_bmp env im = inr data ->
  which env (environ_path w) "cjpeg" = None ->
  let out := api_generate_image env req w in
  out.1 = inl (mkHTTPException 500
    "Image generation failed: [Errno 2] No such file or directory: 'cjpeg'") /\
  (exists g, pipeline_calls out.2 = pipeline_calls w ++ [mkCall (prompt req) 2 g]) /\
  is_Some (fs out.2 !! bmp_path w) /\
  is_Some (fs out.2 !! jpg_path w) /\
  (forall bins w0, lifetime_enter (with_executables bins env) w0 = lifetime_enter env w0).
Proof.
  intros Hl Hg Hs Hw out.
  pose proof (generate_image_frame env (VPipeline p) (ml_models w !! "device")
                (prompt req) (seed req) w) as Hf.
  rewrite Hg in Hf. cbn [snd] in Hf.
  assert (Hw1 : which env (environ_path w1) "cjpeg" = None).
  { destruct Hf as (_ & -> & _). exact Hw. }
  destruct (temp_files_left_behind_aux env req w p im w1 data Hl Hg Hs) as (Hb & Hj).
  split; [|split; [|split; [exact Hb|split; [exact Hj|]]]].
  - subst out. rewrite (api_after_image _ _ _ _ _ _ Hl Hg).
    rewrite (encode_jpeg_not_found _ _ _ _ Hs Hw1). reflexivity.
  - destruct (generate_image_ok_generator _ _ _ _ _ _ _ _ Hg) as [g Hgen].
    exists g. subst out. rewrite api_pipeline_calls. unfold expected_calls.
    rewrite Hl, Hgen. reflexivity.
  - intros bins w0. apply lifetime_enter_ignores_executables.
Qed.

Lemma missing_encoder_fails_mid_request_witness :
  ml_models Demo.ready !! "sana_sprint" = Some (VPipeline Demo.pipeline) /\
  generate_image Demo.env_no_encoder (VPipeline Demo.pipeline)
    (ml_models Demo.ready !! "device") (prompt Demo.cat) (seed Demo.cat) Demo.ready
    = (inr Demo.cat_image, Demo.after_cat) /\
  save_bmp Demo.env_no_encoder Demo.cat_image = inr Demo.bmp_bytes /\
  which Demo.env_no_encoder (environ_path Demo.ready) "cjpeg" = None /\
  (api_generate_image Demo.env_no_encoder Demo.cat Demo.ready).1 =
    inl (mkHTTPException 500
      "Image generation failed: [Errno 2] No such file or directory: 'cjpeg'") /\
  (exists g, pipeline_calls (api_generate_image Demo.env_no_encoder Demo.cat Demo.ready).2
             = pipeline_calls Demo.ready ++ [mkCall (prompt Demo.cat) 2 g]) /\
  is_Some (fs (api_generate_image Demo.env_no_encoder Demo.cat Demo.ready).2
             !! bmp_path Demo.ready) /\
  is_Some (fs (api_generate_image Demo.env_no_encoder Demo.cat Demo.ready).2
             !! jpg_path Demo.ready) /\
  (forall bins w0,
     lifetime_enter (with_executables bins Demo.env_no_encoder) w0 =
     lifetime_enter Demo.env_no_encoder w0).
Proof.
  split; [vm_compute; reflexivity|]. split; [vm_compute; reflexivity|].
  split; [vm_compute; reflexivity|]. split; [vm_compute; reflexivity|].
  apply (missing_encoder_fails_mid_request Demo.env_no_encoder Demo.cat Demo.ready
           Demo.pipeline Demo.cat_image Demo.after_cat Demo.bmp_bytes);
    vm_compute; reflexivity.
Defined.

(** ** The empty prompt (C3) *)

(** C3, as stated, fails: with a model loaded, a request with an empty
    prompt is answered with an image, after the model has been invoked. *)
Lemma empty_prompt_accepted :
  ~ empty_prompt_rejected Demo.env Demo.empty_prompt Demo.ready.
Proof.
  unfold empty_prompt_rejected. intros H. specialize (H eq_refl).
  assert (Hcalls : pipeline_calls
            (api_generate_image Demo.env Demo.empty_prompt Demo.ready).2
          <> pipeline_calls Demo.ready) by (vm_compute; discriminate).
  destruct (api_generate_image Demo.env Demo.empty_prompt Demo.ready) as [r w'].
  destruct H as (_ & H & _). exact (Hcalls H).
Qed.

(** C3, amended. An empty prompt is not rejected: when a pipeline is stored
    and the generator step for the seed of the request does not raise, a
    request with an empty prompt invokes the model capability exactly once,
    with the empty prompt and 2 steps. *)
Theorem empty_prompt_reaches_model env sd w p g :
  ml_models w !! "sana_sprint" = Some (VPipeline p) ->
  (make_generator env (ml_models w !! "device") sd w).1 = inr g ->
  pipeline_calls (api_generate_image env (mkRequest EmptyString sd) w).2 =
  pipeline_calls w ++ [mkCall EmptyString 2 g].
Proof.
  intros Hl Hg. rewrite api_pipeline_calls. unfold expected_calls.
  cbn [prompt seed]. rewrite Hl, Hg. reflexivity.
Qed.

Lemma empty_prompt_reaches_model_witness :
  ml_models Demo.ready !! "sana_sprint" = Some (VPipeline Demo.pipeline) /\
  (make_generator Demo.env (ml_models Demo.ready !! "device") None Demo.ready).1
    = inr None /\
  pipeline_calls (api_generate_image Demo.env (mkRequest EmptyString None) Demo.ready).2 =
  pipeline_calls Demo.ready ++ [mkCall EmptyString 2 None].
Proof.
  split; [vm_compute; reflexivity|]. split; [reflexivity|].
  apply (empty_prompt_reaches_model Demo.env None Demo.ready Demo.pipeline None);
    [vm_compute; reflexivity | reflexivity].
Defined.

(** * Further properties of the code *)

(** ** The crop arithmetic (lines 72-86) *)

(** X1. For every size from 1 up to 2^50, the binary64 computation
    [int(width / target_ratio)] is exactly [3 * width // 2] and
    [int(height * target_ratio)] is exactly [2 * height // 3]: although
    [target_ratio] is slightly below two thirds, rounding never moves either
    result by a pixel. *)
Theorem ratio_lines_exact n :
  1 <= n < 2 ^ 50 ->
  height_for_width n = inr (3 * n / 2) /\ width_for_height n = inr (2 * n / 3).
Proof.
  intros Hn. split; [apply height_for_width_eq | apply width_for_height_eq]; exact Hn.
Qed.

Lemma ratio_lines_exact_witness :
  1 <= 3 < 2 ^ 50 /\
  height_for_width 3 = inr (3 * 3 / 2) /\ width_for_height 3 = inr (2 * 3 / 3).
Proof. split; [lia|]. apply (ratio_lines_exact 3). lia. Defined.

(** X2. The crop box always spans the source in one direction: it runs
    either from the left edge to the right edge or from the top edge to the
    bottom edge. *)
Theorem crop_box_spans_a_side width height :
  1 <= width < 2 ^ 50 -> 1 <= height < 2 ^ 50 ->
  exists b, crop_box width height = inr b /\
    ((box_left b = 0 /\ box_right b = width) \/
     (box_top b = 0 /\ box_bottom b = height)).
Proof.
  intros Hw Hh. rewrite (crop_box_integer width height Hw Hh).
  eexists. split; [reflexivity|].
  case_bool_decide; cbn [box_left box_top box_right box_bottom];
    Z.to_euclidean_division_equations; lia.
Qed.

Lemma crop_box_spans_a_side_witness :
  1 <= 1024 < 2 ^ 50 /\ 1 <= 1024 < 2 ^ 50 /\
  exists b, crop_box 1024 1024 = inr b /\
    ((box_left b = 0 /\ box_right b = 1024) \/
     (box_top b = 0 /\ box_bottom b = 1024)).
Proof. split; [lia|]. split; [lia|]. apply (crop_box_spans_a_side 1024 1024); lia. Defined.

(** X3. A source that already has the ratio 2:3 (width [2 * k], height
    [3 * k]) is not cropped at all: the box is the whole image. *)
Theorem crop_box_two_thirds_source k :
  1 <= k -> 3 * k < 2 ^ 50 ->
  crop_box (2 * k) (3 * k) = inr (mkBox 0 0 (2 * k) (3 * k)).
Proof.
  intros Hk Hb. rewrite crop_box_integer by lia.
  f_equal. case_bool_decide as Hc.
  - exfalso. revert Hc. Z.to_euclidean_division_equations; lia.
  - f_equal; Z.to_euclidean_division_equations; lia.
Qed.

Lemma crop_box_two_thirds_source_witness :
  1 <= 512 /\ 3 * 512 < 2 ^ 50 /\
  crop_box (2 * 512) (3 * 512) = inr (mkBox 0 0 (2 * 512) (3 * 512)).
Proof. split; [lia|]. split; [lia|]. apply (crop_box_two_thirds_source 512); lia. Defined.

Lemma crop_box_zero_width h :
  0 <= h -> crop_box 0 h = inr (mkBox 0 (h / 2) 0 (h / 2)).
Proof.
  intros Hh. unfold crop_box.
  assert (height_for_width 0 = inr 0) as -> by (vm_compute; reflexivity).
  rewrite bool_decide_eq_false_2 by lia.
  f_equal. f_equal; Z.to_euclidean_division_equations; lia.
Qed.

(** X4. Cropping is not idempotent, but nearly: cropping the cropped size
    again keeps the width and removes at most one row. *)
Theorem crop_box_twice width height :
  1 <= width < 2 ^ 50 -> 1 <= height < 2 ^ 50 ->
  exists b b',
    crop_box width height = inr b /\
    crop_box (box_width b) (box_height b) = inr b' /\
    box_width b' = box_width b /\
    box_height b - 1 <= box_height b' <= box_height b.
Proof.
  intros Hw Hh. rewrite (crop_box_integer width height Hw Hh).
  case_bool_decide as Hc.
  - destruct (Z.eq_dec (2 * height / 3) 0) as [E0|N0];
      eexists _, _; (split; [reflexivity|]);
      unfold box_width, box_height; cbn [box_left box_top box_right box_bottom];
      replace ((width - 2 * height / 3) / 2 + 2 * height / 3 - (width - 2 * height / 3) / 2)
        with (2 * height / 3) by lia;
      replace ((height - height) / 2 + height - (height - height) / 2) with height by lia.
    + rewrite E0, crop_box_zero_width by lia. split; [reflexivity|].
      cbn [box_left box_top box_right box_bottom].
      revert E0. Z.to_euclidean_division_equations; lia.
    + rewrite crop_box_integer;
        [|Z.to_euclidean_division_equations; lia | lia].
      split; [reflexivity|].
      case_bool_decide; cbn [box_left box_top box_right box_bottom];
        Z.to_euclidean_division_equations; lia.
  - eexists _, _. split; [reflexivity|].
    unfold box_width, box_height. cbn [box_left box_top box_right box_bottom].
    replace ((width - width) / 2 + width - (width - width) / 2) with width by lia.
    replace ((height - 3 * width / 2) / 2 + 3 * width / 2 - (height - 3 * width / 2) / 2)
      with (3 * width / 2) by lia.
    rewrite crop_box_integer; [|lia|Z.to_euclidean_division_equations; lia].
    split; [reflexivity|].
    case_bool_decide; cbn [box_left box_top box_right box_bottom];
      Z.to_euclidean_division_equations; lia.
Qed.

Lemma crop_box_twice_witness :
  1 <= 1024 < 2 ^ 50 /\ 1 <= 1024 < 2 ^ 50 /\
  exists b b',
    crop_box 1024 1024 = inr b /\
    crop_box (box_width b) (box_height b) = inr b' /\
    box_width b' = box_width b /\
    box_height b - 1 <= box_height b' <= box_height b.
Proof. split; [lia|]. split; [lia|]. apply (crop_box_twice 1024 1024); lia. Defined.

(** The second crop of a square source does lose a row. *)
Example crop_square_again : crop_box 682 1024 = inr (mkBox 0 0 682 1023).
Proof. vm_compute. reflexivity. Qed.

(** X5. The crop box is never wider than high and always has at least one
    row; it has no column at all exactly when the source is one pixel high
    and at least two pixels wide. *)
Theorem crop_box_empty_iff width height :
  1 <= width < 2 ^ 50 -> 1 <= height < 2 ^ 50 ->
  exists b, crop_box width height = inr b /\
    1 <= box_height b /\
    0 <= box_width b <= box_height b /\
    (box_width b = 0 <-> height = 1 /\ 2 <= width).
Proof.
  intros Hw Hh. rewrite (crop_box_integer width height Hw Hh).
  eexists. split; [reflexivity|]. unfold box_width, box_height.
  case_bool_decide; cbn [box_left box_top box_right box_bottom];
    Z.to_euclidean_division_equations; lia.
Qed.

Lemma crop_box_empty_iff_witness :
  1 <= 2 < 2 ^ 50 /\ 1 <= 1 < 2 ^ 50 /\
  exists b, crop_box 2 1 = inr b /\
    1 <= box_height b /\
    0 <= box_width b <= box_height b /\
    (box_width b = 0 <-> 1 = 1 /\ 2 <= 2).
Proof. split; [lia|]. split; [lia|]. apply (crop_box_empty_iff 2 1); lia. Defined.

(** ** [generate_image] (lines 60-90) *)

(** X6. When the model returns a raw image (of a size from 1 up to 2^50 in
    each direction), [generate_image] returns an image of exactly the size
    of the crop box, every pixel of which is the pixel of the raw image at
    the same place shifted by the corner of the box: nothing is padded,
    and the state is the one the synthesis left. *)
Theorem generate_image_pixels env pv device text sd w raw w1 :
  synthesize env pv device text sd w = (inr raw, w1) ->
  1 <= img_width raw < 2 ^ 50 -> 1 <= img_height raw < 2 ^ 50 ->
  exists b out,
    crop_box (img_width raw) (img_height raw) = inr b /\
    generate_image env pv device text sd w = (inr out, w1) /\
    img_width out = box_width b /\ img_height out = box_height b /\
    forall x y, 0 <= x < box_width b -> 0 <= y < box_height b ->
      getpixel out x y = getpixel raw (x + box_left b) (y + box_top b).
Proof.
  intros Hs Hw Hh.
  pose proof (crop_box_integer (img_width raw) (img_height raw) Hw Hh) as Hb.
  match type of Hb with _ = inr ?box => set (b := box) in * end.
  assert (Hin : 0 <= box_left b /\ box_right b <= img_width raw /\
                0 <= box_top b /\ box_bottom b <= img_height raw).
  { subst b. case_bool_decide; cbn [box_left box_top box_right box_bottom];
      Z.to_euclidean_division_equations; lia. }
  clearbody b. destruct Hin as (Hl & Hr & Ht & Hbt).
  exists b, (crop raw b). split; [exact Hb|]. split.
  - unfold generate_image. rewrite (bind_inr _ _ _ _ _ Hs).
    unfold_monad. rewrite Hb. reflexivity.
  - split; [reflexivity|]. split; [reflexivity|].
    intros x y Hx Hy. unfold box_width, box_height in *. cbn [crop getpixel].
    rewrite bool_decide_eq_true_2 by lia. reflexivity.
Qed.

Lemma generate_image_pixels_witness :
  synthesize Demo.env (VPipeline Demo.pipeline) (Some (VStr "cpu")) "a cat" None Demo.ready
    = (inr (Demo.raw_image 7 "a cat"), Demo.after_cat) /\
  1 <= img_width (Demo.raw_image 7 "a cat") < 2 ^ 50 /\
  1 <= img_height (Demo.raw_image 7 "a cat") < 2 ^ 50 /\
  exists b out,
    crop_box (img_width (Demo.raw_image 7 "a cat"))
             (img_height (Demo.raw_image 7 "a cat")) = inr b /\
    generate_image Demo.env (VPipeline Demo.pipeline) (Some (VStr "cpu")) "a cat" None
      Demo.ready = (inr out, Demo.after_cat) /\
    img_width out = box_width b /\ img_height out = box_height b /\
    forall x y, 0 <= x < box_width b -> 0 <= y < box_height b ->
      getpixel out x y = getpixel (Demo.raw_image 7 "a cat") (x + box_left b) (y + box_top b).
Proof.
  split; [vm_compute; reflexivity|]. split; [cbn; lia|]. split; [cbn; lia|].
  apply (generate_image_pixels Demo.env (VPipeline Demo.pipeline) (Some (VStr "cpu"))
           "a cat" None Demo.ready (Demo.raw_image 7 "a cat") Demo.after_cat);
    [vm_compute; reflexivity | cbn; lia | cbn; lia].
Defined.

(** ** Failures inside the [try] block (lines 105-130) *)

Lemma api_synthesis_fails env req w p e w1 :
  ml_models w !! "sana_sprint" = Some (VPipeline p) ->
  synthesize env (VPipeline p) (ml_models w !! "device") (prompt req) (seed req) w
    = (inl e, w1) ->
  api_generate_image env req w =
  (inl (mkHTTPException 500 ("Image generation failed: " +:+ exc_str e)), w1).
Proof.
  intros Hl Hs. rewrite (api_loaded _ _ _ _ Hl).
  unfold generate_body, generate_image.
  rewrite (bind_inl _ _ _ _ _ (bind_inl _ _ _ _ _ Hs)). reflexivity.
Qed.

(** X7. When building the generator or running the model raises, the reply
    is a 500 whose detail is "Image generation failed: " followed by the
    text of that exception, word for word, and the request has touched
    neither the file system nor the temporary-name counter and started no
    process. *)
Theorem synthesis_failure_reply env req w p e w1 :
  ml_models w !! "sana_sprint" = Some (VPipeline p) ->
  synthesize env (VPipeline p) (ml_models w !! "device") (prompt req) (seed req) w
    = (inl e, w1) ->
  api_generate_image env req w =
    (inl (mkHTTPException 500 ("Image generation failed: " +:+ exc_str e)), w1) /\
  fs w1 = fs w /\ tmp_seq w1 = tmp_seq w /\ spawned w1 = spawned w.
Proof.
  intros Hl Hs. split; [exact (api_synthesis_fails _ _ _ _ _ _ Hl Hs)|].
  pose proof (synthesize_frame env (VPipeline p) (ml_models w !! "device")
                (prompt req) (seed req) w) as Hf.
  rewrite Hs in Hf. destruct Hf as (_ & _ & Hfs & Ht & Hsp). done.
Qed.

Lemma synthesis_failure_reply_witness :
  ml_models Faults.ready_broken !! "sana_sprint" = Some (VPipeline Faults.broken_pipeline) /\
  synthesize Demo.env (VPipeline Faults.broken_pipeline)
    (ml_models Faults.ready_broken !! "device") (prompt Demo.cat) (seed Demo.cat)
    Faults.ready_broken
    = (inl (LibraryError "CUDA out of memory"), Faults.after_broken) /\
  api_generate_image Demo.env Demo.cat Faults.ready_broken =
    (inl (mkHTTPException 500
            ("Image generation failed: " +:+ exc_str (LibraryError "CUDA out of memory"))),
     Faults.after_broken) /\
  fs Faults.after_broken = fs Faults.ready_broken /\
  tmp_seq Faults.after_broken = tmp_seq Faults.ready_broken /\
  spawned Faults.after_broken = spawned Faults.ready_broken.
Proof.
  split; [vm_compute; reflexivity|]. split; [vm_compute; reflexivity|].
  apply (synthesis_failure_reply Demo.env Demo.cat Faults.ready_broken
           Faults.broken_pipeline (LibraryError "CUDA out of memory")
           Faults.after_broken);
    vm_compute; reflexivity.
Defined.

(** X8. A non-zero seed that the generator refuses costs nothing: the reply
    is the 500 carrying the generator's message and the state is exactly
    what it was; in particular the model has not been invoked. *)
Theorem rejected_seed_changes_nothing env text s w p e :
  ml_models w !! "sana_sprint" = Some (VPipeline p) ->
  s <> 0 ->
  manual_seed env (ml_models w !! "device") s = inl e ->
  api_generate_image env (mkRequest text (Some s)) w =
  (inl (mkHTTPException 500 ("Image generation failed: " +:+ exc_str e)), w).
Proof.
  intros Hl Hs He. apply (api_synthesis_fails _ _ _ _ _ _ Hl).
  cbn [prompt seed]. unfold synthesize, make_generator.
  rewrite bool_decide_eq_false_2 by exact Hs.
  unfold_monad. rewrite He. reflexivity.
Qed.

Lemma rejected_seed_changes_nothing_witness :
  ml_models Demo.ready !! "sana_sprint" = Some (VPipeline Demo.pipeline) /\
  2 ^ 64 <> 0 /\
  manual_seed Faults.env_strict (ml_models Demo.ready !! "device") (2 ^ 64)
    = inl (RuntimeError "Overflow when unpacking long") /\
  api_generate_image Faults.env_strict (mkRequest "a cat" (Some (2 ^ 64))) Demo.ready =
  (inl (mkHTTPException 500
          ("Image generation failed: " +:+
           exc_str (RuntimeError "Overflow when unpacking long"))), Demo.ready).
Proof.
  split; [vm_compute; reflexivity|]. split; [lia|]. split; [vm_compute; reflexivity|].
  apply (rejected_seed_changes_nothing Faults.env_strict "a cat" (2 ^ 64) Demo.ready
           Demo.pipeline (RuntimeError "Overflow when unpacking long"));
    [vm_compute; reflexivity | lia | vm_compute; reflexivity].
Defined.

(** X9. When saving the bitmap raises, the first temporary file has
    already been created and stays behind, holding whatever the failed save
    had put there (nothing, when it raised before writing); the second one
    is never created and no process is started; the reply is the 500
    carrying the text of the exception. *)
Theorem save_failure_leaves_bitmap env req w p im w1 e part :
  ml_models w !! "sana_sprint" = Some (VPipeline p) ->
  generate_image env (VPipeline p) (ml_models w !! "device") (prompt req) (seed req) w
    = (inr im, w1) ->
  save_bmp env im = inl (e, part) ->
  let out := api_generate_image env req w in
  out.1 = inl (mkHTTPException 500 ("Image generation failed: " +:+ exc_str e)) /\
  fs out.2 = <[bmp_path w := default [] part]> (fs w) /\
  tmp_seq out.2 = S (tmp_seq w) /\
  spawned out.2 = spawned w.
Proof.
  intros Hl Hg Hs out.
  pose proof (generate_image_frame env (VPipeline p) (ml_models w !! "device")
                (prompt req) (seed req) w) as Hf.
  rewrite Hg in Hf. cbn [snd] in Hf.
  destruct (same_outside_paths _ _ Hf) as [Hb _].
  destruct Hf as (_ & _ & Hfs & Ht & Hsp).
  subst out. rewrite (api_after_image _ _ _ _ _ _ Hl Hg).
  rewrite (encode_jpeg_save_fails _ _ _ _ _ Hs). cbn.
  rewrite Hb, Hfs, Ht, Hsp. done.
Qed.

Lemma save_failure_leaves_bitmap_witness :
  ml_models Demo.ready !! "sana_sprint" = Some (VPipeline Demo.pipeline) /\
  generate_image Faults.env_unsavable (VPipeline Demo.pipeline)
    (ml_models Demo.ready !! "device") (prompt Demo.cat) (seed Demo.cat) Demo.ready
    = (inr Demo.cat_image, Demo.after_cat) /\
  save_bmp Faults.env_unsavable Demo.cat_image
    = inl (LibraryError "[Errno 28] No space left on device", Some [Byte.x42]) /\
  (api_generate_image Faults.env_unsavable Demo.cat Demo.ready).1 =
    inl (mkHTTPException 500
           ("Image generation failed: " +:+
            exc_str (LibraryError "[Errno 28] No space left on device"))) /\
  fs (api_generate_image Faults.env_unsavable Demo.cat Demo.ready).2
    = <[bmp_path Demo.ready := default [] (Some [Byte.x42])]> (fs Demo.ready) /\
  tmp_seq (api_generate_image Faults.env_unsavable Demo.cat Demo.ready).2
    = S (tmp_seq Demo.ready) /\
  spawned (api_generate_image Faults.env_unsavable Demo.cat Demo.ready).2
    = spawned Demo.ready.
Proof.
  split; [vm_compute; reflexivity|]. split; [vm_compute; reflexivity|].
  split; [reflexivity|].
  apply (save_failure_leaves_bitmap Faults.env_unsavable Demo.cat Demo.ready Demo.pipeline
           Demo.cat_image Demo.after_cat (LibraryError "[Errno 28] No space left on device")
           (Some [Byte.x42]));
    vm_compute; reflexivity.
Defined.

(** X10. [POST /generate] has two kinds of reply only: a failure always has
    status 500 and a detail that is either "Image generation model not
    available" or "Image generation failed: " followed by the text of an
    exception; a success always has media type image/jpeg. *)
Theorem reply_shapes env req w :
  match (api_generate_image env req w).1 with
  | inl err =>
      status_code err = 500 /\
      (detail err = "Image generation model not available" \/
       exists e, detail err = "Image generation failed: " +:+ exc_str e)
  | inr resp => media_type resp = "image/jpeg"
  end.
Proof.
  unfold api_generate_image.
  destruct (ml_models w !! "sana_sprint") as [pv|]; [|cbn; auto].
  destruct (truthy pv); [|cbn; auto].
  destruct (generate_body env pv (ml_models w !! "device") req w) as [[e|resp] w'] eqn:E.
  - cbn. split; [reflexivity|]. right. exists e. reflexivity.
  - cbn. revert E. unfold generate_body. unfold_monad.
    destruct (generate_image _ _ _ _ _ _) as [[e|im] w1]; [discriminate|].
    destruct (encode_jpeg env im w1) as [[e|d] w2]; [discriminate|].
    intros [= <- _]. reflexivity.
Qed.

(** ** What a run of requests does to the process *)

Lemma write_files_dom writes w : dom (fs w) ⊆ dom (fs (write_files writes w)).
Proof.
  intros k Hk. apply elem_of_dom. apply write_files_is_Some.
  apply elem_of_dom. exact Hk.
Qed.

Lemma staged_dom data w : dom (fs w) ⊆ dom (fs (staged data w)).
Proof. unfold staged. cbn. rewrite !dom_insert_L. set_solver. Qed.

Lemma encode_jpeg_dom env im w : dom (fs w) ⊆ dom (fs (encode_jpeg env im w).2).
Proof.
  destruct (save_bmp env im) as [[e part]|data] eqn:Hs.
  - rewrite (encode_jpeg_save_fails _ _ _ _ _ Hs). cbn. rewrite dom_insert_L.
    apply union_subseteq_r.
  - destruct (which env (environ_path w) "cjpeg") as [prog|] eqn:Hw.
    + destruct (prog (cjpeg_argv (jpg_path w) (bmp_path w))
                  (fun p => fs (staged data w) !! p)) as [rc writes] eqn:Hp.
      rewrite (encode_jpeg_exit _ _ _ _ _ _ _ Hs Hw Hp). cbn [snd set_spawned fs].
      etrans; [apply (staged_dom data)|apply write_files_dom].
    + rewrite (encode_jpeg_not_found _ _ _ _ Hs Hw). apply staged_dom.
Qed.

Lemma encode_jpeg_spawned env im w :
  spawned (encode_jpeg env im w).2 = spawned w \/
  spawned (encode_jpeg env im w).2 = spawned w ++ [cjpeg_argv (jpg_path w) (bmp_path w)].
Proof.
  destruct (save_bmp env im) as [[e part]|data] eqn:Hs.
  - rewrite (encode_jpeg_save_fails _ _ _ _ _ Hs). left. reflexivity.
  - destruct (which env (environ_path w) "cjpeg") as [prog|] eqn:Hw.
    + destruct (prog (cjpeg_argv (jpg_path w) (bmp_path w))
                  (fun p => fs (staged data w) !! p)) as [rc writes] eqn:Hp.
      rewrite (encode_jpeg_exit _ _ _ _ _ _ _ Hs Hw Hp). right. reflexivity.
    + rewrite (encode_jpeg_not_found _ _ _ _ Hs Hw). left. reflexivity.
Qed.

(** The state after the handler is the state after the encode step, after
    the image step, or the state before. *)
Lemma api_world_cases env req w :
  (api_generate_image env req w).2 = w \/
  exists pv,
    let g := generate_image env pv (ml_models w !! "device") (prompt req) (seed req) w in
    match g.1 with
    | inl _ => (api_generate_image env req w).2 = g.2
    | inr im => (api_generate_image env req w).2 = (encode_jpeg env im g.2).2
    end.
Proof.
  unfold api_generate_image.
  destruct (ml_models w !! "sana_sprint") as [pv|]; [|left; reflexivity].
  destruct (truthy pv); [|left; reflexivity].
  right. exists pv. cbv zeta. unfold generate_body. unfold_monad.
  destruct (generate_image _ _ _ _ _ _) as [[e|im] w1]; cbn [fst snd]; [reflexivity|].
  destruct (encode_jpeg env im w1) as [[e|d] w2]; reflexivity.
Qed.

Lemma api_fs_dom env req w : dom (fs w) ⊆ dom (fs (api_generate_image env req w).2).
Proof.
  destruct (api_world_cases env req w) as [-> | (pv & H)]; [done|].
  cbv zeta in H.
  pose proof (generate_image_frame env pv (ml_models w !! "device")
                (prompt req) (seed req) w) as (_ & _ & Hfs & _).
  destruct (generate_image _ _ _ _ _ _) as [[e|im] w1]; cbn [fst snd] in *; rewrite H.
  - rewrite Hfs. done.
  - rewrite <- Hfs. apply encode_jpeg_dom.
Qed.

(** X11. Serving requests never deletes a file: every path that exists
    before a run of requests still exists after it. *)
Theorem requests_never_delete_files env reqs w :
  dom (fs w) ⊆ dom (fs (serve env reqs w).2).
Proof.
  revert w. induction reqs as [|req reqs IH]; intros w; [done|].
  cbn [serve].
  assert (Hh : dom (fs w) ⊆ dom (fs (handle env req w).2)).
  { destruct req as [|body]; [done|]. cbn.
    pose proof (api_fs_dom env body w).
    destruct (api_generate_image env body w); done. }
  destruct (handle env req w) as [reply w1].
  specialize (IH w1). destruct (serve env reqs w1) as [replies w2].
  cbn [snd] in *. set_solver.
Qed.

Lemma api_spawned env req w :
  spawned (api_generate_image env req w).2 = spawned w \/
  exists jpg bmp,
    spawned (api_generate_image env req w).2 = spawned w ++ [cjpeg_argv jpg bmp].
Proof.
  destruct (api_world_cases env req w) as [-> | (pv & H)]; [left; done|].
  cbv zeta in H.
  pose proof (generate_image_frame env pv (ml_models w !! "device")
                (prompt req) (seed req) w) as (_ & _ & _ & _ & Hsp).
  destruct (generate_image _ _ _ _ _ _) as [[e|im] w1]; cbn [fst snd] in *; rewrite H.
  - left. exact Hsp.
  - destruct (encode_jpeg_spawned env im w1) as [-> | ->]; rewrite Hsp; eauto.
Qed.

(** X12. The only program the service ever starts is [cjpeg], always as
    [cjpeg -quality 85 -progressive -outfile <out> <in>], and at most once
    per [POST /generate]; [/health] starts nothing. *)
Theorem only_cjpeg_is_spawned env reqs w :
  exists runs,
    spawned (serve env reqs w).2 = spawned w ++ runs /\
    (length runs <= length (generate_prompts reqs))%nat /\
    Forall (fun argv => exists out inp,
              argv = ["cjpeg"; "-quality"; "85"; "-progressive"; "-outfile"; out; inp])
           runs.
Proof.
  revert w. induction reqs as [|req reqs IH]; intros w.
  - exists []. cbn. rewrite app_nil_r. auto.
  - cbn [serve].
    assert (Hh : exists r1, spawned (handle env req w).2 = spawned w ++ r1 /\
              (length r1 <= length (generate_prompts [req]))%nat /\
              Forall (fun argv => exists out inp,
                argv = ["cjpeg"; "-quality"; "85"; "-progressive"; "-outfile"; out; inp]) r1).
    { destruct req as [|body].
      - exists []. cbn. rewrite app_nil_r. auto.
      - cbn [handle].
        pose proof (api_spawned env body w) as Hs.
        destruct (api_generate_image env body w) as [r w']. cbn [snd] in *.
        destruct Hs as [-> | (jpg & bmp & ->)].
        + exists []. cbn. rewrite app_nil_r. split; [done|]. split; [lia|constructor].
        + exists [cjpeg_argv jpg bmp]. split; [done|]. split; [cbn; lia|].
          constructor; [|constructor]. exists jpg, bmp. reflexivity. }
    destruct Hh as (r1 & H1 & L1 & F1).
    destruct (handle env req w) as [reply w1].
    destruct (IH w1) as (r2 & H2 & L2 & F2).
    destruct (serve env reqs w1) as [replies w2]. cbn [snd] in *.
    exists (r1 ++ r2). split; [rewrite H2, H1, app_assoc; reflexivity|].
    split; [|apply Forall_app; done].
    rewrite length_app. unfold generate_prompts in *.
    change (req :: reqs) with ([req] ++ reqs). rewrite omap_app, length_app. lia.
Qed.

(** X13. The model capability is invoked at most once per [POST /generate]
    and never for [/health], never retried, and always with the prompt of
    the request being served: the prompts of the new invocations, in order,
    are picked from the prompts of the generate requests, in order. *)
Theorem one_model_call_per_generate env reqs w :
  exists calls,
    pipeline_calls (serve env reqs w).2 = pipeline_calls w ++ calls /\
    map call_prompt calls `sublist_of` generate_prompts reqs.
Proof.
  revert w. induction reqs as [|req reqs IH]; intros w.
  - exists []. cbn. rewrite app_nil_r. split; [done|]. constructor.
  - cbn [serve].
    assert (Hh : exists c1, pipeline_calls (handle env req w).2 = pipeline_calls w ++ c1 /\
              map call_prompt c1 `sublist_of` generate_prompts [req]).
    { destruct req as [|body].
      - exists []. cbn. rewrite app_nil_r. split; [done|]. constructor.
      - exists (expected_calls env body w). cbn [handle].
        pose proof (api_pipeline_calls env body w) as Hc.
        destruct (api_generate_image env body w) as [r w']. split; [exact Hc|].
        unfold expected_calls, generate_prompts. cbn.
        destruct (ml_models w !! "sana_sprint") as [[p|s]|]; try apply sublist_nil_l.
        destruct (make_generator _ _ _ _).1; [apply sublist_nil_l|]. cbn. done. }
    destruct Hh as (c1 & H1 & S1).
    destruct (handle env req w) as [reply w1].
    destruct (IH w1) as (c2 & H2 & S2).
    destruct (serve env reqs w1) as [replies w2]. cbn [snd] in *.
    exists (c1 ++ c2). split; [rewrite H2, H1, app_assoc; reflexivity|].
    rewrite map_app. unfold generate_prompts in *.
    change (req :: reqs) with ([req] ++ reqs). rewrite omap_app.
    apply sublist_app; done.
Qed.

(** ** The default random generator *)

Lemma api_default_rng_image env req w p :
  ml_models w !! "sana_sprint" = Some (VPipeline p) ->
  default_rng (api_generate_image env req w).2 =
  default_rng (synthesize env (VPipeline p) (ml_models w !! "device")
                 (prompt req) (seed req) w).2.
Proof.
  intros Hl. rewrite (api_loaded _ _ _ _ Hl).
  unfold generate_body, generate_image. unfold_monad.
  destruct (synthesize _ _ _ _ _ _) as [[e|raw] w1]; [reflexivity|].
  destruct (crop_box _ _) as [e|b]; [reflexivity|].
  pose proof (encode_jpeg_frame env (crop raw b) w1) as (_ & _ & _ & Hr).
  destruct (encode_jpeg env (crop raw b) w1) as [[e|d] w2]; exact Hr.
Qed.

(** X14. A request whose seed builds a generator leaves torch's default
    generator as it was, so it does not disturb the requests that follow;
    a request without a seed, or with seed 0, moves the default generator
    on to the state the model left it in; a request whose seed is refused
    leaves it alone. *)
Theorem default_generator_use env req w p :
  ml_models w !! "sana_sprint" = Some (VPipeline p) ->
  default_rng (api_generate_image env req w).2 =
  match (make_generator env (ml_models w !! "device") (seed req) w).1 with
  | inr None => (run p (prompt req) 2 (default_rng w)).2
  | inr (Some _) | inl _ => default_rng w
  end.
Proof.
  intros Hl. rewrite (api_default_rng_image _ _ _ _ Hl). unfold synthesize.
  pose proof (make_generator_world env (ml_models w !! "device") (seed req) w) as Hw.
  destruct (make_generator _ _ _ _) as [[e|g] w0] eqn:E; cbn [fst snd] in *; subst w0.
  - rewrite (bind_inl _ _ _ _ _ E). reflexivity.
  - rewrite (bind_inr _ _ _ _ _ E). unfold call_pipeline, num_inference_steps.
    destruct g as [g|]; [reflexivity|].
    destruct (run p (prompt req) 2 (default_rng w)); reflexivity.
Qed.

Lemma default_generator_use_witness :
  ml_models Demo.ready !! "sana_sprint" = Some (VPipeline Demo.pipeline) /\
  default_rng (api_generate_image Demo.env Demo.cat_seed5 Demo.ready).2 =
  match (make_generator Demo.env (ml_models Demo.ready !! "device")
           (seed Demo.cat_seed5) Demo.ready).1 with
  | inr None => (run Demo.pipeline (prompt Demo.cat_seed5) 2 (default_rng Demo.ready)).2
  | inr (Some _) | inl _ => default_rng Demo.ready
  end.
Proof.
  split; [vm_compute; reflexivity|].
  apply (default_generator_use Demo.env Demo.cat_seed5 Demo.ready Demo.pipeline).
  vm_compute. reflexivity.
Defined.

(** ** The search path (line 19) *)

Lemma which_app env dirs extra prog :
  which env (dirs ++ extra) prog =
  match which env dirs prog with
  | Some p => Some p
  | None => which env extra prog
  end.
Proof.
  induction dirs as [|d dirs IH]; [reflexivity|]. cbn.
  destruct (executables env !! (d +:+ "/" +:+ prog)); [reflexivity|exact IH].
Qed.

(** X15. Importing the module puts [/opt/mozjpeg/bin] at the end of the
    search path: a program found in a directory that was already on the
    path keeps precedence, and [/opt/mozjpeg/bin] is consulted only when
    none of them has it. *)
Theorem path_precedence env w prog :
  which env (environ_path (module_init w)) prog =
  match which env (environ_path w) prog with
  | Some p => Some p
  | None => executables env !! ("/opt/mozjpeg/bin" +:+ "/" +:+ prog)
  end.
Proof.
  unfold module_init. cbn [environ_path set_ml_models set_environ_path].
  rewrite which_app. destruct (which env (environ_path w) prog); [reflexivity|].
  cbn. destruct (executables env !! _); reflexivity.
Qed.

(** Another [cjpeg] in [/usr/bin] shadows the one in [/opt/mozjpeg/bin]. *)
Example system_cjpeg_wins :
  (api_generate_image Faults.env_cuda Demo.cat
     (lifetime_enter Faults.env_cuda Demo.booted).2).1 =
  inl (mkHTTPException 500
    "Image generation failed: Command '['cjpeg', '-quality', '85', '-progressive', '-outfile', '/tmp/tmp1.jpg', '/tmp/tmp0.bmp']' returned non-zero exit status 1.").
Proof. vm_compute. reflexivity. Qed.

(** ** [lifetime] (lines 25-52) *)

(** X16. When loading the weights or moving the pipeline to the device
    raises, entering [lifetime] raises [RuntimeError] with the message
    "Failed to load model: " followed by the text of the cause, and a
    process that had no pipeline is left exactly as it was: nothing is
    stored, not even the device name. *)
Theorem startup_failure env w e :
  ml_models w !! "sana_sprint" = None ->
  from_pretrained env (chosen_model_path env) = inl e \/
  (exists p, from_pretrained env (chosen_model_path env) = inr p /\
             pipeline_to env p (chosen_device env) = Some e) ->
  lifetime_enter env w =
  (inl (RuntimeError ("Failed to load model: " +:+ exc_str e)), w).
Proof.
  intros Hn Hfail. unfold lifetime_enter, lifetime_load.
  fold (chosen_model_path env). fold (chosen_device env). unfold_monad.
  assert (Hc : lifetime_cleanup w = w).
  { unfold lifetime_cleanup. rewrite Hn.
    rewrite bool_decide_eq_false_2; [reflexivity|]. apply is_Some_None. }
  destruct Hfail as [-> | (p & -> & ->)]; rewrite Hc; reflexivity.
Qed.

Lemma startup_failure_witness :
  ml_models Demo.booted !! "sana_sprint" = None /\
  (from_pretrained Faults.env_unloadable (chosen_model_path Faults.env_unloadable)
     = inl (LibraryError "./sana-local is not a directory") \/
   (exists p, from_pretrained Faults.env_unloadable (chosen_model_path Faults.env_unloadable)
                = inr p /\
              pipeline_to Faults.env_unloadable p (chosen_device Faults.env_unloadable)
                = Some (LibraryError "./sana-local is not a directory"))) /\
  lifetime_enter Faults.env_unloadable Demo.booted =
  (inl (RuntimeError ("Failed to load model: " +:+
                      exc_str (LibraryError "./sana-local is not a directory"))),
   Demo.booted).
Proof.
  split; [reflexivity|]. split; [left; reflexivity|].
  apply (startup_failure Faults.env_unloadable Demo.booted
           (LibraryError "./sana-local is not a directory")); [reflexivity|].
  left. reflexivity.
Defined.

(** X17. After a successful start-up the dictionary holds, under
    ["sana_sprint"], the pipeline loaded from the directory named by
    [SANA_SPRINT_MODEL_PATH] (or from [./sana-local] when the variable is
    not set), which the device accepted, and under ["device"] the name
    "cuda" when an accelerator is available and "cpu" otherwise; nothing
    else in the process has changed. *)
Theorem startup_stores_loaded_pipeline env w w1 :
  lifetime_enter env w = (inr tt, w1) ->
  exists p,
    from_pretrained env (chosen_model_path env) = inr p /\
    pipeline_to env p (chosen_device env) = None /\
    w1 = set_ml_models
           (fun m => <["device" := VStr (chosen_device env)]>
                       (<["sana_sprint" := VPipeline p]> m)) w /\
    ml_models w1 !! "sana_sprint" = Some (VPipeline p) /\
    ml_models w1 !! "device" = Some (VStr (chosen_device env)).
Proof.
  unfold lifetime_enter, lifetime_load.
  fold (chosen_model_path env). fold (chosen_device env). unfold_monad.
  destruct (from_pretrained env (chosen_model_path env)) as [e|p]; [discriminate|].
  destruct (pipeline_to env p (chosen_device env)) as [e|] eqn:Hto; [discriminate|].
  cbn. intros [= <-]. exists p. split; [reflexivity|]. split; [exact Hto|].
  split; [reflexivity|]. cbn. split.
  - rewrite lookup_insert_ne by done. apply lookup_insert_eq.
  - apply lookup_insert_eq.
Qed.

Lemma startup_stores_loaded_pipeline_witness :
  lifetime_enter Faults.env_cuda Demo.booted
    = (inr tt, (lifetime_enter Faults.env_cuda Demo.booted).2) /\
  exists p,
    from_pretrained Faults.env_cuda (chosen_model_path Faults.env_cuda) = inr p /\
    pipeline_to Faults.env_cuda p (chosen_device Faults.env_cuda) = None /\
    (lifetime_enter Faults.env_cuda Demo.booted).2 =
      set_ml_models
        (fun m => <["device" := VStr (chosen_device Faults.env_cuda)]>
                    (<["sana_sprint" := VPipeline p]> m)) Demo.booted /\
    ml_models (lifetime_enter Faults.env_cuda Demo.booted).2 !! "sana_sprint"
      = Some (VPipeline p) /\
    ml_models (lifetime_enter Faults.env_cuda Demo.booted).2 !! "device"
      = Some (VStr (chosen_device Faults.env_cuda)).
Proof.
  split; [vm_compute; reflexivity|].
  apply (startup_stores_loaded_pipeline Faults.env_cuda Demo.booted
           (lifetime_enter Faults.env_cuda Demo.booted).2).
  vm_compute. reflexivity.
Defined.

Example cuda_device_and_path :
  chosen_device Faults.env_cuda = "cuda" /\
  chosen_model_path Faults.env_cuda = "/models/sana" /\
  chosen_device Demo.env = "cpu" /\ chosen_model_path Demo.env = "./sana-local".
Proof. repeat split. Qed.

Lemma set_ml_models_id w f :
  f (ml_models w) = ml_models w -> set_ml_models f w = w.
Proof. intros E. destruct w. unfold set_ml_models. cbn in *. rewrite E. reflexivity. Qed.

(** X18. Leaving [lifetime] removes the entry ["sana_sprint"] and nothing
    else: the device name stays in the dictionary and the rest of the
    process is untouched; leaving again changes nothing; and it raises
    exactly when an exception was thrown into it. *)
Theorem shutdown_removes_only_pipeline thrown w :
  let out := lifetime_exit thrown w in
  out.2 = set_ml_models (base.delete "sana_sprint") w /\
  ml_models out.2 !! "device" = ml_models w !! "device" /\
  (lifetime_exit thrown out.2).2 = out.2 /\
  (out.1 = inr tt <-> thrown = None).
Proof.
  assert (Hc : forall w0, lifetime_cleanup w0 = set_ml_models (base.delete "sana_sprint") w0).
  { intros w0. unfold lifetime_cleanup. case_bool_decide as Hs; [reflexivity|].
    symmetry. apply set_ml_models_id. apply delete_id.
    destruct (ml_models w0 !! "sana_sprint") eqn:E; [|reflexivity].
    exfalso. apply Hs. eauto. }
  assert (Hw : forall t w0, (lifetime_exit t w0).2 = lifetime_cleanup w0)
    by (intros [e|] w0; reflexivity).
  cbv zeta. rewrite !Hw, !Hc. split; [reflexivity|]. split; [|split].
  - cbn. rewrite lookup_delete_ne by done. reflexivity.
  - unfold set_ml_models. cbn. rewrite delete_delete_eq. reflexivity.
  - destruct thrown; cbn; split; intros; congruence.
Qed.

(** X19. While no pipeline is stored (after the import, after a failed
    start-up, after the shutdown) a run of requests leaves the process
    exactly as it was: every [/health] answers "ok" with [model_loaded]
    false and every [/generate] is refused with the 500 "Image generation
    model not available". *)
Theorem unloaded_serve env reqs w :
  ml_models w !! "sana_sprint" = None ->
  serve env reqs w = (map reply_unloaded reqs, w).
Proof.
  intros Hn. induction reqs as [|req reqs IH]; [reflexivity|].
  cbn [serve map].
  assert (Hh : handle env req w = (reply_unloaded req, w)).
  { destruct req as [|body]; cbn.
    - unfold health_check. rewrite Hn.
      rewrite bool_decide_eq_false_2; [reflexivity|]. apply is_Some_None.
    - unfold api_generate_image. rewrite Hn. reflexivity. }
  rewrite Hh, IH. reflexivity.
Qed.

Lemma unloaded_serve_witness :
  ml_models (lifetime_exit None Demo.ready).2 !! "sana_sprint" = None /\
  serve Demo.env [GetHealth; PostGenerate Demo.cat] (lifetime_exit None Demo.ready).2 =
  (map reply_unloaded [GetHealth; PostGenerate Demo.cat], (lifetime_exit None Demo.ready).2).
Proof.
  split; [vm_compute; reflexivity|].
  apply (unloaded_serve Demo.env [GetHealth; PostGenerate Demo.cat]
           (lifetime_exit None Demo.ready).2).
  vm_compute. reflexivity.
Defined.

(** ** The disk after a request *)

(** X20. Every request that gets as far as saving the bitmap leaves at
    least two more files on disk than there were, when the two temporary
    names were free: the disk fills up with each generated image. *)
Theorem encoded_request_adds_two_files env req w p im w1 data :
  ml_models w !! "sana_sprint" = Some (VPipeline p) ->
  generate_image env (VPipeline p) (ml_models w !! "device") (prompt req) (seed req) w
    = (inr im, w1) ->
  save_bmp env im = inr data ->
  fs w !! bmp_path w = None -> fs w !! jpg_path w = None ->
  (size (fs w) + 2 <= size (fs (api_generate_image env req w).2))%nat.
Proof.
  intros Hl Hg Hs Hfb Hfj.
  destruct (temp_files_left_behind_aux env req w p im w1 data Hl Hg Hs) as (Hb & Hj).
  pose proof (api_fs_dom env req w) as Hdom.
  set (w' := (api_generate_image env req w).2) in *.
  assert (Hsub : dom (fs w) ∪ ({[bmp_path w]} ∪ {[jpg_path w]}) ⊆ dom (fs w')).
  { apply elem_of_dom in Hb, Hj.
    intros k [Hk | [->%elem_of_singleton | ->%elem_of_singleton]%elem_of_union]%elem_of_union;
      [exact (Hdom k Hk) | exact Hb | exact Hj]. }
  apply subseteq_size in Hsub.
  rewrite size_union in Hsub.
  2:{ apply not_elem_of_dom in Hfb, Hfj. intros k Hk [->%elem_of_singleton | ->%elem_of_singleton]%elem_of_union; done. }
  rewrite size_union in Hsub.
  2:{ intros k ->%elem_of_singleton Hk%elem_of_singleton.
      exact (bmp_jpg_distinct w Hk). }
  rewrite !size_singleton, !size_dom in Hsub. lia.
Qed.

Lemma encoded_request_adds_two_files_witness :
  ml_models Demo.ready !! "sana_sprint" = Some (VPipeline Demo.pipeline) /\
  generate_image Demo.env (VPipeline Demo.pipeline) (ml_models Demo.ready !! "device")
    (prompt Demo.cat) (seed Demo.cat) Demo.ready = (inr Demo.cat_image, Demo.after_cat) /\
  save_bmp Demo.env Demo.cat_image = inr Demo.bmp_bytes /\
  fs Demo.ready !! bmp_path Demo.ready = None /\
  fs Demo.ready !! jpg_path Demo.ready = None /\
  (size (fs Demo.ready) + 2 <= size (fs (api_generate_image Demo.env Demo.cat Demo.ready).2))%nat.
Proof.
  split; [vm_compute; reflexivity|]. split; [vm_compute; reflexivity|].
  split; [vm_compute; reflexivity|]. split; [vm_compute; reflexivity|].
  split; [vm_compute; reflexivity|].
  apply (encoded_request_adds_two_files Demo.env Demo.cat Demo.ready Demo.pipeline
           Demo.cat_image Demo.after_cat Demo.bmp_bytes); vm_compute; reflexivity.
Defined.

Lemma write_files_other writes w k :
  Forall (fun kv => kv.1 <> k) writes ->
  fs (write_files writes w) !! k = fs w !! k.
Proof.
  unfold write_files. destruct w as [mm ep m ts dr pc sp]. cbn.
  revert m. induction writes as [|[k' v] writes IH]; intros m Hf; cbn; [done|].
  inversion Hf as [|? ? Hk Hrest]; subst. cbn in Hk.
  rewrite IH by exact Hrest. apply lookup_insert_ne. exact Hk.
Qed.

(** X21. The handler trusts exit status 0: when the encoder exits with 0
    without having written to the output path, the reply is a success
    whose body is empty, the content the output file was created with. *)
Theorem silent_encoder_gives_empty_image env req w p im w1 data prog writes :
  ml_models w !! "sana_sprint" = Some (VPipeline p) ->
  generate_image env (VPipeline p) (ml_models w !! "device") (prompt req) (seed req) w
    = (inr im, w1) ->
  save_bmp env im = inr data ->
  which env (environ_path w) "cjpeg" = Some prog ->
  prog ["cjpeg"; "-quality"; "85"; "-progressive"; "-outfile"; jpg_path w; bmp_path w]
       (fun path => fs (staged data w) !! path) = (0, writes) ->
  Forall (fun kv => kv.1 <> jpg_path w) writes ->
  (api_generate_image env req w).1 = inr (mkResponse [] "image/jpeg").
Proof.
  intros Hl Hg Hs Hw Hp Hnone.
  pose proof (generate_image_frame env (VPipeline p) (ml_models w !! "device")
                (prompt req) (seed req) w) as Hf.
  rewrite Hg in Hf. cbn [snd] in Hf.
  destruct (same_outside_paths _ _ Hf) as [Hb Hj].
  pose proof (same_outside_staged data _ _ Hf) as Hst.
  destruct Hf as (_ & Hpath & _).
  assert (Hw1 : which env (environ_path w1) "cjpeg" = Some prog) by (rewrite Hpath; exact Hw).
  assert (Hp1 : prog (cjpeg_argv (jpg_path w1) (bmp_path w1))
                  (fun path => fs (staged data w1) !! path) = (0, writes)).
  { rewrite Hb, Hj, Hst. exact Hp. }
  rewrite (api_after_image _ _ _ _ _ _ Hl Hg).
  rewrite (encode_jpeg_exit env im w1 data prog 0 writes Hs Hw1 Hp1).
  cbv zeta. cbn [set_spawned fs].
  rewrite write_files_other by (rewrite Hj; exact Hnone).
  unfold staged. cbn [set_tmp_seq set_fs fs]. rewrite lookup_insert_eq.
  reflexivity.
Qed.

Lemma silent_encoder_gives_empty_image_witness :
  ml_models Demo.ready !! "sana_sprint" = Some (VPipeline Demo.pipeline) /\
  generate_image Faults.env_silent (VPipeline Demo.pipeline)
    (ml_models Demo.ready !! "device") (prompt Demo.cat) (seed Demo.cat) Demo.ready
    = (inr Demo.cat_image, Demo.after_cat) /\
  save_bmp Faults.env_silent Demo.cat_image = inr Demo.bmp_bytes /\
  which Faults.env_silent (environ_path Demo.ready) "cjpeg" = Some Faults.cjpeg_silent /\
  Faults.cjpeg_silent
    ["cjpeg"; "-quality"; "85"; "-progressive"; "-outfile";
     jpg_path Demo.ready; bmp_path Demo.ready]
    (fun path => fs (staged Demo.bmp_bytes Demo.ready) !! path) = (0, []) /\
  Forall (fun kv : string * Bytes => kv.1 <> jpg_path Demo.ready) [] /\
  (api_generate_image Faults.env_silent Demo.cat Demo.ready).1
    = inr (mkResponse [] "image/jpeg").
Proof.
  split; [vm_compute; reflexivity|]. split; [vm_compute; reflexivity|].
  split; [reflexivity|]. split; [vm_compute; reflexivity|].
  split; [reflexivity|]. split; [constructor|].
  apply (silent_encoder_gives_empty_image Faults.env_silent Demo.cat Demo.ready
           Demo.pipeline Demo.cat_image Demo.after_cat Demo.bmp_bytes
           Faults.cjpeg_silent []);
    [vm_compute; reflexivity | vm_compute; reflexivity | reflexivity
    | vm_compute; reflexivity | reflexivity | constructor].
Defined.
